(** * The device-ingestion worker of [server.py]

    A shallow embedding of [read_arduino], of the two persistence helpers it
    calls ([save_alert], [save_reading]) and of the [get_history] route,
    followed by the properties of the ingestion pipeline.

    What lies outside the repository is an input of the model: the serial
    port (what a poll returns or raises), [json.loads] (a non-empty line
    arrives as the decoder's verdict on it), the clocks, and
    [find_arduino_port]'s answer together with the outcome of opening the
    port. *)

From Stdlib Require Import String Ascii ZArith QArith List Bool Lia DecimalString.
From Stdlib Require Import Permutation.
Import ListNotations.

Local Open Scope string_scope.
Local Open Scope Z_scope.
Local Open Scope list_scope.

(** ** Python values

    The values [json.loads] produces: [None], [bool], [int], [float], [str],
    [list] and [dict].  A finite float is kept as the rational it denotes;
    the decoder also accepts [Infinity], [-Infinity] and [NaN].  A [str] is
    kept as the bytes of its UTF-8 encoding, so the values here are those
    whose text [print] can write: a [str] holding a lone surrogate (which
    the decoder builds from an escape such as backslash-u d800) has no such
    encoding and is not among them. *)

Inductive Float : Type :=
| Finite (q : Q)
| Inf (negative : bool)
| NaN.

#[warnings="-register-all"]
Inductive value : Type :=
| VNone
| VBool (b : bool)
| VInt (z : Z)
| VFloat (f : Float)
| VStr (s : string)
| VList (items : list value)
| VDict (entries : list (string * value)).

Inductive Exn : Type :=
| TypeError
| AttributeError
| KeyError.

(** Outcome of a Python expression: its value or the exception it raises. *)
Inductive Res (A : Type) : Type :=
| Ok (a : A)
| Err (e : Exn).
Arguments Ok {A} a.
Arguments Err {A} e.

Fixpoint lookup (key : string) (entries : list (string * value)) : option value :=
  match entries with
  | [] => None
  | (k, v) :: rest => if String.eqb k key then Some v else lookup key rest
  end.

(** [needle in hay] for two [str]: substring test. *)
Fixpoint substring_of (needle hay : string) : bool :=
  prefix needle hay ||
  match hay with
  | EmptyString => false
  | String _ rest => substring_of needle rest
  end.

Definition is_str (key : string) (v : value) : bool :=
  match v with
  | VStr s => String.eqb s key
  | _ => false
  end.

(** [key in d] and [d.get(key, default)] on the entries of a [dict]. *)
Definition dict_has (key : string) (entries : list (string * value)) : bool :=
  match lookup key entries with Some _ => true | None => false end.

Definition dict_get (key : string) (default : value)
    (entries : list (string * value)) : value :=
  match lookup key entries with Some v => v | None => default end.

(** [key in data] *)
Definition py_in (key : string) (data : value) : Res bool :=
  match data with
  | VDict entries => Ok (dict_has key entries)
  | VStr s => Ok (substring_of key s)
  | VList items => Ok (existsb (is_str key) items)
  | VNone | VBool _ | VInt _ | VFloat _ => Err TypeError
  end.

(** [data[key]] with a [str] key *)
Definition py_getitem (data : value) (key : string) : Res value :=
  match data with
  | VDict entries =>
      match lookup key entries with
      | Some v => Ok v
      | None => Err KeyError
      end
  | _ => Err TypeError
  end.

(** [data.get(key, default)] *)
Definition py_get (data : value) (key : string) (default : value) : Res value :=
  match data with
  | VDict entries => Ok (dict_get key default entries)
  | _ => Err AttributeError
  end.

Definition Qgtb (a b : Q) : bool :=
  match Qcompare a b with Gt => true | _ => false end.

Definition Qltb (a b : Q) : bool :=
  match Qcompare a b with Lt => true | _ => false end.

(** [v > n] for an [int] literal [n]; ordering a non-number against an
    [int] raises [TypeError]. *)
Definition py_gt (v : value) (n : Z) : Res bool :=
  match v with
  | VInt z => Ok (n <? z)
  | VBool b => Ok (n <? Z.b2z b)
  | VFloat (Finite q) => Ok (Qgtb q (inject_Z n))
  | VFloat (Inf negative) => Ok (negb negative)
  | VFloat NaN => Ok false
  | VNone | VStr _ | VList _ | VDict _ => Err TypeError
  end.

(** [v < n] *)
Definition py_lt (v : value) (n : Z) : Res bool :=
  match v with
  | VInt z => Ok (z <? n)
  | VBool b => Ok (Z.b2z b <? n)
  | VFloat (Finite q) => Ok (Qltb q (inject_Z n))
  | VFloat (Inf negative) => Ok negative
  | VFloat NaN => Ok false
  | VNone | VStr _ | VList _ | VDict _ => Err TypeError
  end.

(** ** The shared snapshot [current_data] *)

Record Snapshot : Type := {
  temperature : value;
  humidity : value;
  dust : value;
  pressure : value;
  time : string;
  status : string;
  alert : value;
  connected : bool;
  tracker : value
}.

Definition initial_tracker : value :=
  VDict [("angle", VInt 90); ("ldr_left", VInt 0); ("ldr_right", VInt 0);
         ("diff", VInt 0); ("action", VStr "CENTER");
         ("status", VStr "INITIALIZING")].

(** The module-level literal (lines 180-197). *)
Definition initial_current_data : Snapshot := {|
  temperature := VInt 0;
  humidity := VInt 0;
  dust := VInt 0;
  pressure := VInt 0;
  time := "--:--:--";
  status := "Starting...";
  alert := VStr "";
  connected := false;
  tracker := initial_tracker
|}.

Definition set_temperature (v : value) (c : Snapshot) : Snapshot :=
  {| temperature := v; humidity := humidity c; dust := dust c;
     pressure := pressure c; time := time c; status := status c;
     alert := alert c; connected := connected c; tracker := tracker c |}.

Definition set_humidity (v : value) (c : Snapshot) : Snapshot :=
  {| temperature := temperature c; humidity := v; dust := dust c;
     pressure := pressure c; time := time c; status := status c;
     alert := alert c; connected := connected c; tracker := tracker c |}.

Definition set_dust (v : value) (c : Snapshot) : Snapshot :=
  {| temperature := temperature c; humidity := humidity c; dust := v;
     pressure := pressure c; time := time c; status := status c;
     alert := alert c; connected := connected c; tracker := tracker c |}.

Definition set_pressure (v : value) (c : Snapshot) : Snapshot :=
  {| temperature := temperature c; humidity := humidity c; dust := dust c;
     pressure := v; time := time c; status := status c;
     alert := alert c; connected := connected c; tracker := tracker c |}.

Definition set_time (t : string) (c : Snapshot) : Snapshot :=
  {| temperature := temperature c; humidity := humidity c; dust := dust c;
     pressure := pressure c; time := t; status := status c;
     alert := alert c; connected := connected c; tracker := tracker c |}.

Definition set_status (t : string) (c : Snapshot) : Snapshot :=
  {| temperature := temperature c; humidity := humidity c; dust := dust c;
     pressure := pressure c; time := time c; status := t;
     alert := alert c; connected := connected c; tracker := tracker c |}.

Definition set_alert (v : value) (c : Snapshot) : Snapshot :=
  {| temperature := temperature c; humidity := humidity c; dust := dust c;
     pressure := pressure c; time := time c; status := status c;
     alert := v; connected := connected c; tracker := tracker c |}.

Definition set_connected (b : bool) (c : Snapshot) : Snapshot :=
  {| temperature := temperature c; humidity := humidity c; dust := dust c;
     pressure := pressure c; time := time c; status := status c;
     alert := alert c; connected := b; tracker := tracker c |}.

Definition set_tracker (v : value) (c : Snapshot) : Snapshot :=
  {| temperature := temperature c; humidity := humidity c; dust := dust c;
     pressure := pressure c; time := time c; status := status c;
     alert := alert c; connected := connected c; tracker := v |}.

(** ** The SQLite store

    Rows are kept in insertion order.  [timestamp] is the column default
    [CURRENT_TIMESTAMP], in seconds.  The text of an alert is an f-string:
    it is kept as its literal pieces and the values formatted into it. *)

Inductive Piece : Type :=
| Lit (s : string)
| Fmt (v : value).

Record AlertRow : Type := {
  a_timestamp : Z;
  a_message : list Piece;
  a_level : string
}.

Record ReadingRow : Type := {
  r_timestamp : Z;
  r_temperature : value;
  r_humidity : value;
  r_dust_density : value;
  r_air_pressure : value;
  r_tracker_angle : value;
  r_ldr_left : value;
  r_ldr_right : value;
  r_light_diff : value;
  r_tracker_status : value;
  r_status : string
}.

(** [db_online] is false when [sqlite3] raises on connect, execute or
    commit: both helpers catch the exception and return [False]. *)
Record Database : Type := {
  db_online : bool;
  readings : list ReadingRow;
  alerts : list AlertRow
}.

(** What [sqlite3] binds to a [?]: [None], numbers that fit a 64-bit
    integer or a double, and text.  A [list] or a [dict] raises. *)
Definition sqlite_bindable (v : value) : bool :=
  match v with
  | VNone | VBool _ | VFloat _ | VStr _ => true
  | VInt z => (- 2 ^ 63 <=? z) && (z <? 2 ^ 63)
  | VList _ | VDict _ => false
  end.

Definition row_bindable (r : ReadingRow) : bool :=
  forallb sqlite_bindable
    [r_temperature r; r_humidity r; r_dust_density r; r_air_pressure r;
     r_tracker_angle r; r_ldr_left r; r_ldr_right r; r_light_diff r;
     r_tracker_status r].

(** [save_reading] (lines 138-158) *)
Definition save_reading (r : ReadingRow) (d : Database) : Database * bool :=
  if db_online d && row_bindable r
  then ({| db_online := db_online d;
           readings := readings d ++ [r];
           alerts := alerts d |}, true)
  else (d, false).

(** [save_alert] (lines 160-174) *)
Definition save_alert (a : AlertRow) (d : Database) : Database * bool :=
  if db_online d
  then ({| db_online := db_online d;
           readings := readings d;
           alerts := alerts d ++ [a] |}, true)
  else (d, false).

(** ** The worker's state *)

(** The clocks read while a line is handled: [datetime.now()] formatted
    with [%H:%M:%S], and SQLite's [CURRENT_TIMESTAMP]. *)
Record Clock : Type := {
  time_of_day : string;
  current_timestamp : Z
}.

(** The local [ser]: the port it was opened on and whether [close] has
    been called on it. *)
Record Serial : Type := {
  port : string;
  is_open : bool
}.

(** Where the worker stands in [read_arduino]: at the head of the outer
    [while True], at the head of the probe loop with its
    [timeout_counter], or at the head of the read loop. *)
Inductive Phase : Type :=
| Discovering
| Probing (timeout_counter : nat)
| Connected.

Inductive Effect : Type :=
| Sleep (ms : Z)
| SerialOpen (p : string)
| SerialClose (p : string).

(** [visible] lists every value [current_data] has held, most recent
    first: the dict is mutated in place, one key at a time, and a request
    handler that reads it meanwhile ([get_data]) finds one of these. *)
Record State : Type := {
  current_data : Snapshot;
  visible : list Snapshot;
  db : Database;
  phase : Phase;
  ser : option Serial;
  arduino_found : bool;
  effects : list Effect
}.

Definition with_current_data (c : Snapshot) (s : State) : State :=
  {| current_data := c; visible := c :: visible s; db := db s;
     phase := phase s; ser := ser s; arduino_found := arduino_found s;
     effects := effects s |}.

Definition with_db (d : Database) (s : State) : State :=
  {| current_data := current_data s; visible := visible s; db := d;
     phase := phase s; ser := ser s; arduino_found := arduino_found s;
     effects := effects s |}.

Definition with_phase (p : Phase) (s : State) : State :=
  {| current_data := current_data s; visible := visible s; db := db s;
     phase := p; ser := ser s; arduino_found := arduino_found s;
     effects := effects s |}.

Definition with_ser (r : option Serial) (s : State) : State :=
  {| current_data := current_data s; visible := visible s; db := db s;
     phase := phase s; ser := r; arduino_found := arduino_found s;
     effects := effects s |}.

Definition with_arduino_found (b : bool) (s : State) : State :=
  {| current_data := current_data s; visible := visible s; db := db s;
     phase := phase s; ser := ser s; arduino_found := b;
     effects := effects s |}.

Definition emit (e : Effect) (s : State) : State :=
  {| current_data := current_data s; visible := visible s; db := db s;
     phase := phase s; ser := ser s; arduino_found := arduino_found s;
     effects := effects s ++ [e] |}.

(** One assignment [current_data[key] = v]. *)
Definition assign (f : Snapshot -> Snapshot) (s : State) : State :=
  with_current_data (f (current_data s)) s.

(** A line as [readline], [decode] and [strip] hand it over: empty, or
    else some text, given by what [json.loads] makes of it ([None] when
    it raises [JSONDecodeError]).  The lines on which the decoder raises
    something else ([RecursionError] on very deep nesting, [ValueError] on
    an integer literal of thousands of digits) are not lines of the
    model. *)
Inductive Line : Type :=
| Blank
| Text (decoded : option value).

(** ** The body of the read loop as a state and control-flow monad

    A statement ends normally, executes [continue], or raises. *)

Inductive Flow (A : Type) : Type :=
| Next (a : A)
| Continue
| Raise (e : Exn).
Arguments Next {A} a.
Arguments Continue {A}.
Arguments Raise {A} e.

Definition M (A : Type) : Type := State -> Flow A * State.

Definition ret {A : Type} (a : A) : M A := fun s => (Next a, s).

Definition bind {A B : Type} (c : M A) (k : A -> M B) : M B :=
  fun s =>
    match c s with
    | (Next a, s') => k a s'
    | (Continue, s') => (Continue, s')
    | (Raise e, s') => (Raise e, s')
    end.

Declare Scope py_scope.
Delimit Scope py_scope with py.
Notation "x <- c ;; k" := (bind c (fun x => k))
  (at level 61, c at next level, right associativity) : py_scope.
Notation "c ;; k" := (bind c (fun _ => k))
  (at level 61, right associativity) : py_scope.
Local Open Scope py_scope.

Definition continue {A : Type} : M A := fun s => (Continue, s).

Definition eval {A : Type} (r : Res A) : M A :=
  fun s => match r with Ok a => (Next a, s) | Err e => (Raise e, s) end.

Definition store (f : Snapshot -> Snapshot) : M unit :=
  fun s => (Next tt, assign f s).

Definition load : M Snapshot := fun s => (Next (current_data s), s).

(** [a and b], evaluated left to right with short circuit. *)
Definition py_and (a b : M bool) : M bool :=
  x <- a ;; if x then b else ret false.

(** [a or b] *)
Definition py_or (a b : M bool) : M bool :=
  x <- a ;; if x then ret true else b.

Definition call_save_alert (now : Clock) (message : list Piece)
    (level : string) : M bool :=
  fun s =>
    let r := save_alert {| a_timestamp := current_timestamp now;
                           a_message := message;
                           a_level := level |} (db s) in
    (Next (snd r), with_db (fst r) s).

Definition call_save_reading (r : ReadingRow) : M bool :=
  fun s =>
    let o := save_reading r (db s) in
    (Next (snd o), with_db (fst o) s).

(** Lines 320-334: the threshold chain; its value is [alert_msg]. *)
Definition alert_chain (data : value) (now : Clock) : M string :=
  temp <- eval (py_getitem data "temp") ;;
  hot <- eval (py_gt temp 40) ;;
  if hot then
    call_save_alert now [Lit "High temperature: "; Fmt temp; Lit "°C"] "WARNING" ;;
    ret "🔥 High temperature!"
  else
    hum <- eval (py_getitem data "hum") ;;
    humid <- eval (py_gt hum 80) ;;
    if humid then
      call_save_alert now [Lit "High humidity: "; Fmt hum; Lit "%"] "WARNING" ;;
      ret "💧 High humidity!"
    else
      d <- eval (py_get data "dust" (VInt 0)) ;;
      dusty <- eval (py_gt d 150) ;;
      if dusty then
        d' <- eval (py_get data "dust" VNone) ;;
        call_save_alert now [Lit "High dust: "; Fmt d'; Lit "µg/m³"] "WARNING" ;;
        ret "🌫️ Poor air quality!"
      else
        abnormal <- py_or (p <- eval (py_get data "pressure" (VInt 0)) ;;
                           eval (py_gt p 35))
                          (p <- eval (py_get data "pressure" (VInt 0)) ;;
                           eval (py_lt p 5)) ;;
        if abnormal then
          p' <- eval (py_get data "pressure" VNone) ;;
          call_save_alert now [Lit "Pressure: "; Fmt p'; Lit "kPa"] "WARNING" ;;
          ret "⚠️ Abnormal air pressure!"
        else
          ret "✅ All systems normal".

(** Lines 289-354: what the read loop does with one line.  The [print]
    calls of lines 300 and 304 evaluate their argument, which can raise,
    and write a text that every value of the model allows them to
    write. *)
Definition handle_line (line : Line) (now : Clock) : M unit :=
  match line with
  | Blank => continue
  | Text decoded =>
    match decoded with
    | None => continue
    | Some data =>
        control <- py_and (eval (py_in "status" data)) (eval (py_in "msg" data)) ;;
        if control then
          eval (py_getitem data "msg") ;;
          continue
        else
          failed <- eval (py_in "error" data) ;;
          if failed then
            eval (py_getitem data "error") ;;
            e <- eval (py_getitem data "error") ;;
            store (set_alert e) ;;
            continue
          else
            reading <- py_and (eval (py_in "temp" data)) (eval (py_in "hum" data)) ;;
            if reading then
              temp <- eval (py_getitem data "temp") ;;
              store (set_temperature temp) ;;
              hum <- eval (py_getitem data "hum") ;;
              store (set_humidity hum) ;;
              d <- eval (py_get data "dust" (VInt 0)) ;;
              store (set_dust d) ;;
              p <- eval (py_get data "pressure" (VInt 0)) ;;
              store (set_pressure p) ;;
              store (set_time (time_of_day now)) ;;
              store (set_status "Active ✓") ;;
              store (set_connected true) ;;
              has_tracker <- eval (py_in "tracker" data) ;;
              (if has_tracker then
                 t <- eval (py_getitem data "tracker") ;;
                 store (set_tracker t)
               else ret tt) ;;
              alert_msg <- alert_chain data now ;;
              store (set_alert (VStr alert_msg)) ;;
              c <- load ;;
              let tracker := tracker c in
              temp <- eval (py_getitem data "temp") ;;
              hum <- eval (py_getitem data "hum") ;;
              d <- eval (py_get data "dust" (VInt 0)) ;;
              p <- eval (py_get data "pressure" (VInt 0)) ;;
              angle <- eval (py_get tracker "angle" (VInt 90)) ;;
              ldr_left <- eval (py_get tracker "ldr_left" (VInt 0)) ;;
              ldr_right <- eval (py_get tracker "ldr_right" (VInt 0)) ;;
              diff <- eval (py_get tracker "diff" (VInt 0)) ;;
              tstatus <- eval (py_get tracker "status" (VStr "UNKNOWN")) ;;
              call_save_reading
                {| r_timestamp := current_timestamp now;
                   r_temperature := temp;
                   r_humidity := hum;
                   r_dust_density := d;
                   r_air_pressure := p;
                   r_tracker_angle := angle;
                   r_ldr_left := ldr_left;
                   r_ldr_right := ldr_right;
                   r_light_diff := diff;
                   r_tracker_status := tstatus;
                   r_status := "OK" |} ;;
              ret tt
            else ret tt
    end
  end.

(** ** The loops of [read_arduino] *)

(** What one poll of the open port gives: nothing waiting, a line and the
    clocks as they stand, or an exception from [in_waiting] or
    [readline]. *)
Inductive Poll : Type :=
| NoData
| Readline (line : Line) (now : Clock)
| SerialException
| OtherException.

(** How one pass through lines 235-251 goes: [find_arduino_port] returns
    [None], raises, or returns a port that [serial.Serial] then opens,
    refuses with [SerialException], or fails on otherwise. *)
Inductive Discovery : Type :=
| NoPort
| FindRaises
| Opened (p : string)
| OpenSerialException (p : string)
| OpenRaises (p : string).

Inductive Event : Type :=
| Locate (d : Discovery)
| Polled (p : Poll).

Definition sleep (ms : Z) (s : State) : State := emit (Sleep ms) s.

(** Lines 243-246 *)
Definition not_found (s : State) : State :=
  sleep 5000
    (assign (set_status "❌ Arduino NOT connected - Check USB!")
       (assign (set_connected false) s)).

(** Lines 270-276 *)
Definition no_data (s : State) : State :=
  let closed :=
    match ser s with
    | Some r =>
        emit (SerialClose (port r))
          (with_ser (Some {| port := port r; is_open := false |}) s)
    | None => s
    end in
  with_phase Discovering
    (sleep 5000
       (assign (set_status "❌ No data - Upload sketch!")
          (assign (set_connected false) closed))).

(** Lines 282-283, reached by the [break] of line 265 *)
Definition connect (s : State) : State :=
  with_phase Connected
    (assign (set_status "Connected ✓")
       (assign (set_connected true) (with_arduino_found true s))).

(** Lines 358-362 *)
Definition connection_lost (s : State) : State :=
  with_phase Discovering
    (assign (set_status "Connection lost")
       (assign (set_connected false) s)).

(** Lines 364-369 *)
Definition serial_error (s : State) : State :=
  with_phase Discovering
    (sleep 5000
       (assign (set_status "Serial error")
          (assign (set_connected false) s))).

(** Lines 371-375 *)
Definition disconnected (s : State) : State :=
  with_phase Discovering
    (sleep 5000
       (assign (set_status "Disconnected")
          (assign (set_connected false) s))).

(** Lines 235-256 *)
Definition discover (d : Discovery) (s : State) : State :=
  match d with
  | NoPort => not_found s
  | FindRaises => disconnected s
  | Opened p =>
      with_phase (Probing 0)
        (sleep 2000
           (emit (SerialOpen p)
              (with_ser (Some {| port := p; is_open := true |}) s)))
  | OpenSerialException _ => serial_error s
  | OpenRaises _ => disconnected s
  end.

(** Lines 266-268 and the loop test of line 258 that follows them. *)
Definition waiting (timeout_counter : nat) (s : State) : State :=
  let s' := sleep 1000 s in
  let timeout_counter := S timeout_counter in
  if (timeout_counter <? 10)%nat
  then with_phase (Probing timeout_counter) s'
  else no_data s'.

(** Lines 258-268: one pass of the probe loop. *)
Definition probe (timeout_counter : nat) (p : Poll) (s : State) : State :=
  if (timeout_counter <? 10)%nat then
    match p with
    | NoData => waiting timeout_counter s
    | Readline Blank _ => waiting timeout_counter s
    | Readline (Text _) _ => connect s
    | SerialException => serial_error s
    | OtherException => disconnected s
    end
  else no_data s.

(** Lines 286-362: one pass of the read loop. *)
Definition read (p : Poll) (s : State) : State :=
  match p with
  | NoData => sleep 100 s
  | Readline line now =>
      match handle_line line now s with
      | (Next _, s') => sleep 100 s'
      | (Continue, s') => s'
      | (Raise _, s') => connection_lost s'
      end
  | SerialException | OtherException => connection_lost s
  end.

(** One step of the worker.  An event that answers a call the worker is
    not making where it stands is not consumed. *)
Definition step (s : State) (e : Event) : State :=
  match phase s, e with
  | Discovering, Locate d => discover d s
  | Probing n, Polled p => probe n p s
  | Connected, Polled p => read p s
  | _, _ => s
  end.

Definition run (s : State) (es : list Event) : State := fold_left step es s.

(** Module load followed by lines 228-231. *)
Definition boot (d : Database) : State :=
  assign (set_status "Searching for Arduino...")
    (assign (set_connected false)
       {| current_data := initial_current_data;
          visible := [initial_current_data];
          db := d;
          phase := Discovering;
          ser := None;
          arduino_found := false;
          effects := [] |}).

Definition reachable (s : State) : Prop :=
  exists d es, s = run (boot d) es.

(** ** The history route *)

Record HistoryItem : Type := {
  h_timestamp : Z;
  h_temperature : value;
  h_humidity : value;
  h_dust : value;
  h_pressure : value;
  h_tracker_angle : value
}.

Inductive HistoryResponse : Type :=
| HistoryRows (rows : list HistoryItem)
| HistoryError.

(** [ORDER BY timestamp DESC], as an insertion sort. *)
Fixpoint insert_desc (r : ReadingRow) (sorted : list ReadingRow) : list ReadingRow :=
  match sorted with
  | [] => [r]
  | x :: rest =>
      if r_timestamp x <=? r_timestamp r then r :: sorted
      else x :: insert_desc r rest
  end.

Definition order_by_timestamp_desc (rows : list ReadingRow) : list ReadingRow :=
  fold_right insert_desc [] rows.

(** The first second SQLite's dates reach back to: noon of 24 November
    4714 BC, in seconds from 1970. *)
Definition sqlite_first_second : Z := - 210866760000.

(** [datetime('now', '-' || n || ' hours')], or [' days'], in seconds;
    [now] is SQLite's clock and [unit_seconds] the length of the unit.
    The result is [NULL], here [None], when [n] is negative (the modifier
    then reads [--n hours], which SQLite does not take) and when the date
    falls before the first one SQLite has. *)
Definition window_start (unit_seconds n now : Z) : option Z :=
  if (n <? 0) || (now - unit_seconds * n <? sqlite_first_second)
  then None
  else Some (now - unit_seconds * n).

(** What SQLite binds to a [?] when given a Python [int]. *)
Definition fits_int64 (z : Z) : bool := (- 2 ^ 63 <=? z) && (z <? 2 ^ 63).

(** The [SELECT] of lines 399-405.  No row compares above [NULL]. *)
Definition select_history (hours now : Z) (d : Database) : list ReadingRow :=
  match window_start 3600 hours now with
  | Some start =>
      firstn 1000
        (order_by_timestamp_desc
           (filter (fun r => start <? r_timestamp r) (readings d)))
  | None => []
  end.

Definition history_item (r : ReadingRow) : HistoryItem :=
  {| h_timestamp := r_timestamp r;
     h_temperature := r_temperature r;
     h_humidity := r_humidity r;
     h_dust := r_dust_density r;
     h_pressure := r_air_pressure r;
     h_tracker_angle := r_tracker_angle r |}.

(** [get_history] (lines 393-425); an [hours] that does not fit 64 bits
    makes the binding raise, which the route answers with its error
    object. *)
Definition get_history (hours now : Z) (d : Database) : HistoryResponse :=
  if db_online d && fits_int64 hours
  then HistoryRows (map history_item (select_history hours now d))
  else HistoryError.

(** ** Reading lines and the alert rules *)

(** [int], [float] and [bool] (a subclass of [int]) order against an
    [int] literal. *)
Definition is_number (v : value) : bool :=
  match v with
  | VInt _ | VBool _ | VFloat _ => true
  | _ => false
  end.

Definition is_dict (v : value) : bool :=
  match v with
  | VDict _ => true
  | _ => false
  end.

(** The JSON objects from which the read loop builds a reading: neither a
    [status]/[msg] pair nor an [error] key, [temp] and [hum] present, and
    numbers for the four measured quantities ([dust] and [pressure] may
    be absent). *)
Definition reading_line (entries : list (string * value)) : bool :=
  negb (dict_has "status" entries && dict_has "msg" entries)
  && negb (dict_has "error" entries)
  && dict_has "temp" entries
  && dict_has "hum" entries
  && is_number (dict_get "temp" VNone entries)
  && is_number (dict_get "hum" VNone entries)
  && is_number (dict_get "dust" (VInt 0) entries)
  && is_number (dict_get "pressure" (VInt 0) entries).

(** The tracker sub-state the snapshot holds once the line is taken in:
    the line's own [tracker] or else the one already there. *)
Definition tracker_after (entries : list (string * value)) (c : Snapshot) : value :=
  dict_get "tracker" (tracker c) entries.

(** The five outcomes of the alert evaluator, as the specification names
    them, and its priority order; [exceeds] and [below] are the
    comparisons on numbers. *)
Inductive Rule : Type :=
| HighTemperature
| HighHumidity
| PoorAirQuality
| AbnormalPressure
| AllNormal.

Definition exceeds (v : value) (n : Z) : bool :=
  match py_gt v n with Ok b => b | Err _ => false end.

Definition below (v : value) (n : Z) : bool :=
  match py_lt v n with Ok b => b | Err _ => false end.

Definition evaluate (temp hum dust_density air_pressure : value) : Rule :=
  if exceeds temp 40 then HighTemperature
  else if exceeds hum 80 then HighHumidity
  else if exceeds dust_density 150 then PoorAirQuality
  else if exceeds air_pressure 35 || below air_pressure 5 then AbnormalPressure
  else AllNormal.

Definition evaluate_line (entries : list (string * value)) : Rule :=
  evaluate (dict_get "temp" VNone entries) (dict_get "hum" VNone entries)
    (dict_get "dust" (VInt 0) entries) (dict_get "pressure" (VInt 0) entries).

Definition alert_text (r : Rule) : string :=
  match r with
  | HighTemperature => "🔥 High temperature!"
  | HighHumidity => "💧 High humidity!"
  | PoorAirQuality => "🌫️ Poor air quality!"
  | AbnormalPressure => "⚠️ Abnormal air pressure!"
  | AllNormal => "✅ All systems normal"
  end.

(** The message of the alert row a rule logs; the normal case logs none. *)
Definition alert_message (r : Rule) (entries : list (string * value))
    : option (list Piece) :=
  match r with
  | HighTemperature =>
      Some [Lit "High temperature: "; Fmt (dict_get "temp" VNone entries); Lit "°C"]
  | HighHumidity =>
      Some [Lit "High humidity: "; Fmt (dict_get "hum" VNone entries); Lit "%"]
  | PoorAirQuality =>
      Some [Lit "High dust: "; Fmt (dict_get "dust" VNone entries); Lit "µg/m³"]
  | AbnormalPressure =>
      Some [Lit "Pressure: "; Fmt (dict_get "pressure" VNone entries); Lit "kPa"]
  | AllNormal => None
  end.

(** The store once the rule's alert, if it has one, went through
    [save_alert], and the rows this added. *)
Definition alerted (r : Rule) (entries : list (string * value))
    (now : Clock) (d : Database) : Database :=
  match alert_message r entries with
  | Some m =>
      fst (save_alert {| a_timestamp := current_timestamp now;
                         a_message := m;
                         a_level := "WARNING" |} d)
  | None => d
  end.

Definition logged_alerts (r : Rule) (entries : list (string * value))
    (now : Clock) (d : Database) : list AlertRow :=
  match alert_message r entries with
  | Some m =>
      if db_online d
      then [{| a_timestamp := current_timestamp now;
               a_message := m;
               a_level := "WARNING" |}]
      else []
  | None => []
  end.

(** The row handed to [save_reading] for a line, given the tracker
    sub-state of the snapshot. *)
Definition reading_row (entries : list (string * value))
    (tracker_entries : list (string * value)) (now : Clock) : ReadingRow :=
  {| r_timestamp := current_timestamp now;
     r_temperature := dict_get "temp" VNone entries;
     r_humidity := dict_get "hum" VNone entries;
     r_dust_density := dict_get "dust" (VInt 0) entries;
     r_air_pressure := dict_get "pressure" (VInt 0) entries;
     r_tracker_angle := dict_get "angle" (VInt 90) tracker_entries;
     r_ldr_left := dict_get "ldr_left" (VInt 0) tracker_entries;
     r_ldr_right := dict_get "ldr_right" (VInt 0) tracker_entries;
     r_light_diff := dict_get "diff" (VInt 0) tracker_entries;
     r_tracker_status := dict_get "status" (VStr "UNKNOWN") tracker_entries;
     r_status := "OK" |}.

(** The snapshot a reading line leaves behind. *)
Definition published (entries : list (string * value)) (now : Clock)
    (c : Snapshot) : Snapshot :=
  {| temperature := dict_get "temp" VNone entries;
     humidity := dict_get "hum" VNone entries;
     dust := dict_get "dust" (VInt 0) entries;
     pressure := dict_get "pressure" (VInt 0) entries;
     time := time_of_day now;
     status := "Active ✓";
     alert := VStr (alert_text (evaluate_line entries));
     connected := true;
     tracker := tracker_after entries c |}.

(** Field by field, [m] holds what [old] or what [new] holds. *)
Definition mixes (old new m : Snapshot) : Prop :=
  (temperature m = temperature old \/ temperature m = temperature new)
  /\ (humidity m = humidity old \/ humidity m = humidity new)
  /\ (dust m = dust old \/ dust m = dust new)
  /\ (pressure m = pressure old \/ pressure m = pressure new)
  /\ (time m = time old \/ time m = time new)
  /\ (status m = status old \/ status m = status new)
  /\ (alert m = alert old \/ alert m = alert new)
  /\ (connected m = connected old \/ connected m = connected new)
  /\ (tracker m = tracker old \/ tracker m = tracker new).

(** ** Frames, invariants and inputs used in the statements *)

(** What the line handler never touches. *)
Definition frame (s s' : State) : Prop :=
  phase s' = phase s /\ ser s' = ser s
  /\ arduino_found s' = arduino_found s /\ effects s' = effects s.

Definition framed {A : Type} (c : M A) : Prop :=
  forall s, frame s (snd (c s)).

(** Outside the read loop the connectivity flag is down; inside the probe
    loop the counter is below ten and the port just opened is open. *)
Definition idle_invariant (s : State) : Prop :=
  (phase s <> Connected -> connected (current_data s) = false)
  /\ (forall n, phase s = Probing n ->
        (n < 10)%nat /\ exists p, ser s = Some {| port := p; is_open := true |}).

(** A poll that leaves the probe loop waiting: nothing to read, or a line
    that strips to the empty string. *)
Definition silent (e : Event) : bool :=
  match e with
  | Polled NoData => true
  | Polled (Readline Blank _) => true
  | _ => false
  end.

(** The snapshot fields other than the connectivity flag and the status
    line. *)
Definition keeps_readings (c c' : Snapshot) : Prop :=
  temperature c' = temperature c
  /\ humidity c' = humidity c
  /\ dust c' = dust c
  /\ pressure c' = pressure c
  /\ time c' = time c
  /\ alert c' = alert c
  /\ tracker c' = tracker c.

(** The steps on which the worker finds itself cut off from the device:
    no port or a failed open during discovery, an exception or the tenth
    silent poll in the probe loop, an exception from the port in the read
    loop. *)
Definition disconnects (s : State) (e : Event) : bool :=
  match phase s, e with
  | Discovering, Locate (Opened _) => false
  | Discovering, Locate _ => true
  | Probing _, Polled (SerialException | OtherException) => true
  | Probing n, Polled p => silent (Polled p) && (n =? 9)%nat
  | Connected, Polled (SerialException | OtherException) => true
  | _, _ => false
  end.

(** The status line each of these steps writes (lines 244, 274, 361, 367
    and 374). *)
Definition disconnect_status (s : State) (e : Event) : string :=
  match phase s, e with
  | Discovering, Locate NoPort => "❌ Arduino NOT connected - Check USB!"
  | Discovering, Locate (OpenSerialException _) => "Serial error"
  | Discovering, Locate _ => "Disconnected"
  | Probing n, Polled p =>
      if (n <? 10)%nat then
        match p with
        | SerialException => "Serial error"
        | OtherException => "Disconnected"
        | _ => "❌ No data - Upload sketch!"
        end
      else "❌ No data - Upload sketch!"
  | Connected, Polled _ => "Connection lost"
  | _, _ => status (current_data s)
  end.

(** A JSON object on the wire, as the read loop polls it. *)
Definition object_line (entries : list (string * value)) (now : Clock) : Event :=
  Polled (Readline (Text (Some (VDict entries))) now).

(** A reading line whose [tracker], when it has one, is an object. *)
Definition well_formed (entries : list (string * value)) : bool :=
  reading_line entries && is_dict (dict_get "tracker" (VDict []) entries).

(** [m] shows the measurements of the line [entries]. *)
Definition reflects (m : Snapshot) (entries : list (string * value)) : Prop :=
  temperature m = dict_get "temp" VNone entries
  /\ humidity m = dict_get "hum" VNone entries
  /\ dust m = dict_get "dust" (VInt 0) entries
  /\ pressure m = dict_get "pressure" (VInt 0) entries.

(** *** Sample inputs *)

Definition empty_db : Database :=
  {| db_online := true; readings := []; alerts := [] |}.

Definition noon : Clock :=
  {| time_of_day := "12:00:00"; current_timestamp := 43200 |}.

(** The worker in its read loop on a fresh store: the port opened, and a
    first line, not JSON, confirmed the device. *)
Definition listening : State :=
  run (boot empty_db)
    [Locate (Opened "COM3"); Polled (Readline (Text None) noon)].

(** A store holding one reading, stamped at noon. *)
Definition one_reading_db : Database :=
  {| db_online := true;
     readings := [reading_row [("temp", VInt 20); ("hum", VInt 50)] [] noon];
     alerts := [] |}.

(** Sample lines: a plain reading, a reading with a tracker object, a
    hotter reading, a device error sent along with measurements, and an
    error key inside a status message. *)
Definition mild : list (string * value) :=
  [("temp", VInt 20); ("hum", VInt 50)].

Definition mild_tracked : list (string * value) :=
  [("temp", VInt 20); ("hum", VInt 50); ("tracker", VDict [("angle", VInt 45)])].

Definition warm : list (string * value) :=
  [("temp", VInt 30); ("hum", VInt 60); ("pressure", VInt 20)].

Definition faulty : list (string * value) :=
  [("error", VStr "DHT read failed"); ("temp", VInt 20); ("hum", VInt 50)].

Definition status_with_error : list (string * value) :=
  [("status", VStr "boot"); ("msg", VStr "starting"); ("error", VStr "DHT read failed")].

(** The worker in its read loop with a reading in the snapshot and in the
    store. *)
Definition after_warm_reading : State := step listening (object_line warm noon).

Definition hot : list (string * value) :=
  [("temp", VInt 41); ("hum", VInt 50)].

(** The entries of the tracker sub-state the worker starts with. *)
Definition initial_tracker_entries : list (string * value) :=
  [("angle", VInt 90); ("ldr_left", VInt 0); ("ldr_right", VInt 0);
   ("diff", VInt 0); ("action", VStr "CENTER");
   ("status", VStr "INITIALIZING")].

(** A run of object lines, each with the clocks at its arrival. *)
Definition object_lines (ls : list (list (string * value) * Clock)) : list Event :=
  map (fun l => object_line (fst l) (snd l)) ls.

(** ** The schema

    The two tables [init_database] looks after.  A table has the name it
    was created under, its columns with their declared types, and its
    rows, one cell per column ([VNone] for [NULL]).  SQLite compares
    table and column names without regard to the case of ASCII letters;
    the Python side compares them exactly.  Errors of the environment
    (a locked or unwritable file) are not modelled. *)

Record Table : Type := {
  t_name : string;
  t_columns : list (string * string);
  t_rows : list (list value)
}.

(** [cat_readings] is the table SQLite finds under the name [readings],
    [cat_alerts] the one it finds under [alerts]. *)
Record Catalog : Type := {
  cat_readings : option Table;
  cat_alerts : option Table
}.

(** A name with its letters A to Z in lower case. *)
Fixpoint lower (s : string) : string :=
  match s with
  | EmptyString => EmptyString
  | String c rest =>
      String (if (Ascii.leb "A" c && Ascii.leb c "Z")%bool
              then ascii_of_N (N_of_ascii c + 32)
              else c)
             (lower rest)
  end.

Definition same_name (a b : string) : bool := String.eqb (lower a) (lower b).

(** Lines 50-58 *)
Definition columns_to_add : list (string * string) :=
  [("dust_density", "REAL"); ("air_pressure", "REAL"); ("tracker_angle", "REAL");
   ("ldr_left", "INTEGER"); ("ldr_right", "INTEGER"); ("light_diff", "INTEGER");
   ("tracker_status", "TEXT")].

(** Lines 66-81 and 102-117 *)
Definition new_readings_table : Table :=
  {| t_name := "readings";
     t_columns :=
       [("id", "INTEGER PRIMARY KEY AUTOINCREMENT");
        ("timestamp", "DATETIME DEFAULT CURRENT_TIMESTAMP");
        ("temperature", "REAL"); ("humidity", "REAL");
        ("dust_density", "REAL"); ("air_pressure", "REAL");
        ("tracker_angle", "REAL"); ("ldr_left", "INTEGER");
        ("ldr_right", "INTEGER"); ("light_diff", "INTEGER");
        ("tracker_status", "TEXT"); ("status", "TEXT")];
     t_rows := [] |}.

(** Lines 83-90 and 119-126 *)
Definition new_alerts_table : Table :=
  {| t_name := "alerts";
     t_columns :=
       [("id", "INTEGER PRIMARY KEY AUTOINCREMENT");
        ("timestamp", "DATETIME DEFAULT CURRENT_TIMESTAMP");
        ("message", "TEXT"); ("level", "TEXT")];
     t_rows := [] |}.

(** [ALTER TABLE ... ADD COLUMN]: refused when the table has a column of
    that name, whatever its case; the rows get a [NULL] in the new
    column. *)
Definition alter_add_column (col : string * string) (t : Table) : option Table :=
  if existsb (fun c => same_name (fst c) (fst col)) (t_columns t) then None
  else Some {| t_name := t_name t;
               t_columns := t_columns t ++ [col];
               t_rows := map (fun r => r ++ [VNone]) (t_rows t) |}.

(** Lines 60-63: the loop over [columns_to_add], with the [column_names]
    read before it. *)
Fixpoint add_missing (column_names : list string)
    (to_add : list (string * string)) (t : Table) : option Table :=
  match to_add with
  | [] => Some t
  | col :: rest =>
      if existsb (String.eqb (fst col)) column_names
      then add_missing column_names rest t
      else
        match alter_add_column col t with
        | Some t' => add_missing column_names rest t'
        | None => None
        end
  end.

(** Lines 39-92: the [try] block; [None] when a statement raises. *)
Definition migrate (c : Catalog) : option Catalog :=
  let table_exists :=
    match cat_readings c with
    | Some t => String.eqb (t_name t) "readings"
    | None => false
    end in
  match
    (if table_exists then
       match cat_readings c with
       | Some t => add_missing (map fst (t_columns t)) columns_to_add t
       | None => None
       end
     else
       match cat_readings c with
       | Some _ => None
       | None => Some new_readings_table
       end)
  with
  | Some r =>
      Some {| cat_readings := Some r;
              cat_alerts :=
                match cat_alerts c with
                | Some a => Some a
                | None => Some new_alerts_table
                end |}
  | None => None
  end.

(** Lines 95-129: both tables dropped and created anew. *)
Definition recreated : Catalog :=
  {| cat_readings := Some new_readings_table;
     cat_alerts := Some new_alerts_table |}.

(** [init_database] (lines 33-132) *)
Definition init_database (c : Catalog) : Catalog :=
  match migrate c with
  | Some c' => c'
  | None => recreated
  end.

(** The sensor columns a table with the given column names lacks. *)
Definition missing_columns (column_names : list string) : list (string * string) :=
  filter (fun col => negb (existsb (String.eqb (fst col)) column_names))
    columns_to_add.

(** No column of the table differs only by case from a column that
    [init_database] would add. *)
Definition no_case_clash (t : Table) : bool :=
  forallb
    (fun col =>
       forallb (fun c => negb (same_name (fst c) (fst col))) (t_columns t))
    (missing_columns (map fst (t_columns t))).

(** A readings table of the first version of the program, with two rows,
    and one whose dust column was created as [Dust_Density]. *)
Definition old_readings_table : Table :=
  {| t_name := "readings";
     t_columns :=
       [("id", "INTEGER PRIMARY KEY AUTOINCREMENT");
        ("timestamp", "DATETIME DEFAULT CURRENT_TIMESTAMP");
        ("temperature", "REAL"); ("humidity", "REAL"); ("status", "TEXT")];
     t_rows :=
       [[VInt 1; VStr "2024-01-01 10:00:00"; VFloat (Finite (43 # 2));
         VInt 50; VStr "OK"];
        [VInt 2; VStr "2024-01-01 10:00:05"; VInt 22; VInt 51; VStr "OK"]] |}.

Definition odd_case_table : Table :=
  {| t_name := "readings";
     t_columns :=
       [("id", "INTEGER PRIMARY KEY AUTOINCREMENT");
        ("temperature", "REAL"); ("humidity", "REAL");
        ("Dust_Density", "REAL"); ("status", "TEXT")];
     t_rows := [[VInt 1; VInt 21; VInt 50; VInt 12; VStr "OK"]] |}.

(** ** Port discovery *)

(** An entry of [serial.tools.list_ports.comports()]. *)
Record PortInfo : Type := {
  device : string;
  description : string
}.

(** The keywords of line 210, looked for in [description.lower()]:
    they are made of ASCII letters and digits, and [lower] lowers the
    letters A to Z. *)
Definition keywords : list string := ["arduino"; "ch340"; "usb"].

Definition common_ports : list string :=
  ["COM3"; "COM4"; "COM5"; "COM6"; "/dev/ttyUSB0"; "/dev/ttyACM0"].

(** Line 210 *)
Definition looks_like_arduino (p : PortInfo) : bool :=
  existsb (fun keyword => substring_of keyword (lower (description p))) keywords.

(** [find_arduino_port] (lines 203-222).  [ports] is what [comports()]
    lists and [opens p] tells whether [serial.Serial(p, 9600,
    timeout=0.1)] succeeds; the result comes with the opens and closes
    made on the way. *)
Definition find_arduino_port (ports : list PortInfo) (opens : string -> bool)
    : option string * list Effect :=
  match find looks_like_arduino ports with
  | Some p => (Some (device p), [])
  | None =>
      match find opens common_ports with
      | Some p => (Some p, [SerialOpen p; SerialClose p])
      | None => (None, [])
      end
  end.

(** ** The other routes *)

Inductive AlertsResponse : Type :=
| AlertRows (rows : list AlertRow)
| AlertsError.

(** [ORDER BY timestamp DESC] on the alert log. *)
Fixpoint insert_alert_desc (a : AlertRow) (sorted : list AlertRow) : list AlertRow :=
  match sorted with
  | [] => [a]
  | x :: rest =>
      if a_timestamp x <=? a_timestamp a then a :: sorted
      else x :: insert_alert_desc a rest
  end.

Definition order_alerts_desc (rows : list AlertRow) : list AlertRow :=
  fold_right insert_alert_desc [] rows.

(** [LIMIT n]: a negative [n] means no limit. *)
Definition sql_limit {A : Type} (n : Z) (rows : list A) : list A :=
  if n <? 0 then rows else firstn (Z.to_nat n) rows.

(** [get_alerts] (lines 580-608) *)
Definition get_alerts (limit : Z) (d : Database) : AlertsResponse :=
  if db_online d && fits_int64 limit
  then AlertRows (sql_limit limit (order_alerts_desc (alerts d)))
  else AlertsError.

Record Stats : Type := {
  total_readings : Z;
  oldest_reading : option Z;
  newest_reading : option Z
}.

Inductive StatsResponse : Type :=
| StatsOk (s : Stats)
| StatsError.

(** [MIN(timestamp)] and [MAX(timestamp)]: [NULL] on an empty table. *)
Fixpoint sql_min (ts : list Z) : option Z :=
  match ts with
  | [] => None
  | t :: rest =>
      match sql_min rest with
      | None => Some t
      | Some m => Some (Z.min t m)
      end
  end.

Fixpoint sql_max (ts : list Z) : option Z :=
  match ts with
  | [] => None
  | t :: rest =>
      match sql_max rest with
      | None => Some t
      | Some m => Some (Z.max t m)
      end
  end.

(** [get_db_stats] (lines 611-632) *)
Definition get_db_stats (d : Database) : StatsResponse :=
  if db_online d
  then StatsOk {| total_readings := Z.of_nat (length (readings d));
                  oldest_reading := sql_min (map r_timestamp (readings d));
                  newest_reading := sql_max (map r_timestamp (readings d)) |}
  else StatsError.

(** A cell handed to [csv.writer]: a header text, a timestamp, or a
    stored value. *)
Inductive Cell : Type :=
| CText (s : string)
| CStamp (t : Z)
| CValue (v : value).

Inductive CsvResponse : Type :=
| CsvFile (filename : string) (rows : list (list Cell))
| CsvError.

Definition csv_header : list Cell :=
  [CText "Timestamp"; CText "Temperature (°C)"; CText "Humidity (%)";
   CText "Dust (µg/m³)"; CText "Air Pressure (kPa)"; CText "Panel Angle (°)";
   CText "Left LDR"; CText "Right LDR"; CText "Light Diff";
   CText "Tracker Status"].

Definition csv_row (r : ReadingRow) : list Cell :=
  [CStamp (r_timestamp r); CValue (r_temperature r); CValue (r_humidity r);
   CValue (r_dust_density r); CValue (r_air_pressure r);
   CValue (r_tracker_angle r); CValue (r_ldr_left r); CValue (r_ldr_right r);
   CValue (r_light_diff r); CValue (r_tracker_status r)].

(** The [SELECT] of lines 435-441: the readings of the last [days] days,
    newest first, all of them; none when the start of the window is
    [NULL]. *)
Definition select_export (days now : Z) (d : Database) : list ReadingRow :=
  match window_start 86400 days now with
  | Some start =>
      order_by_timestamp_desc
        (filter (fun r => start <? r_timestamp r) (readings d))
  | None => []
  end.

(** [export_csv] (lines 429-466); the rows are those given to
    [writer.writerow], in order. *)
Definition export_csv (days now : Z) (d : Database) : CsvResponse :=
  if db_online d && fits_int64 days
  then CsvFile
         ("environmental_data_last_"
          ++ NilZero.string_of_int (Z.to_int days) ++ "_days.csv")%string
         (csv_header :: map csv_row (select_export days now d))
  else CsvError.

(** The six columns the history route keeps of a row written to the CSV
    file. *)
Definition history_of_csv (row : list Cell) : option HistoryItem :=
  match row with
  | [CStamp t; CValue temp; CValue hum; CValue d; CValue p; CValue angle;
     _; _; _; _] =>
      Some {| h_timestamp := t; h_temperature := temp; h_humidity := hum;
              h_dust := d; h_pressure := p; h_tracker_angle := angle |}
  | _ => None
  end.

(** A list of timestamps, newest first. *)
Fixpoint descending (ts : list Z) : Prop :=
  match ts with
  | [] => True
  | t :: rest => (forall u, In u rest -> u <= t) /\ descending rest
  end.

(** A store with two alerts, logged at noon and one minute later, and the
    reading of [one_reading_db]. *)
Definition two_alerts_db : Database :=
  {| db_online := true;
     readings := [reading_row [("temp", VInt 20); ("hum", VInt 50)] [] noon];
     alerts :=
       [{| a_timestamp := 43200;
           a_message := [Lit "High humidity: "; Fmt (VInt 90); Lit "%"];
           a_level := "WARNING" |};
        {| a_timestamp := 43260;
           a_message := [Lit "High temperature: "; Fmt (VInt 41); Lit "°C"];
           a_level := "WARNING" |}] |}.

Definition one_past_noon : Clock :=
  {| time_of_day := "13:00:00"; current_timestamp := 46800 |}.

(** The store [d'] holds what [d] holds, and possibly more rows after
    them. *)
Definition grows (d d' : Database) : Prop :=
  db_online d' = db_online d
  /\ (exists more, readings d' = readings d ++ more)
  /\ (exists more, alerts d' = alerts d ++ more).

(** A relation between the states before and after a statement holds
    whatever the statement's outcome. *)
Definition preserved {A : Type} (R : State -> State -> Prop) (c : M A) : Prop :=
  forall s, R s (snd (c s)).

Definition store_grows (s s' : State) : Prop := grows (db s) (db s').

Definition flag_stays_up (s s' : State) : Prop :=
  connected (current_data s) = true -> connected (current_data s') = true.

(** The lines the read loop passes over: an empty line, a line on which
    [json.loads] raises [JSONDecodeError], and an object with both a
    [status] and a [msg] key. *)
Definition passed_over (line : Line) : bool :=
  match line with
  | Blank => true
  | Text None => true
  | Text (Some (VDict entries)) =>
      dict_has "status" entries && dict_has "msg" entries
  | Text (Some _) => false
  end.

(** An object the read loop starts to take in as a reading although its
    [temp] does not order against a number. *)
Definition unordered_reading (entries : list (string * value)) : bool :=
  negb (dict_has "status" entries && dict_has "msg" entries)
  && negb (dict_has "error" entries)
  && dict_has "temp" entries
  && dict_has "hum" entries
  && negb (is_number (dict_get "temp" VNone entries)).

(** What a sensor that failed to read sends when its values are
    serialised as [null]. *)
Definition null_reading : list (string * value) :=
  [("temp", VNone); ("hum", VNone)].

(** The flag is up exactly in the read loop. *)
Definition flag_invariant (s : State) : Prop :=
  connected (current_data s) = true <-> phase s = Connected.

(** ** Properties *)

Lemma number_gt (v : value) (n : Z) :
  is_number v = true -> py_gt v n = Ok (exceeds v n).
Proof.
  unfold exceeds.
  destruct v as [| b | z | f | | |]; try discriminate; intros _.
  - reflexivity.
  - reflexivity.
  - destruct f; reflexivity.
Qed.

Lemma number_lt (v : value) (n : Z) :
  is_number v = true -> py_lt v n = Ok (below v n).
Proof.
  unfold below.
  destruct v as [| b | z | f | | |]; try discriminate; intros _.
  - reflexivity.
  - reflexivity.
  - destruct f; reflexivity.
Qed.

Lemma with_db_same (s : State) : with_db (db s) s = s.
Proof. destruct s; reflexivity. Qed.

Lemma reading_line_inv (entries : list (string * value)) :
  reading_line entries = true ->
  dict_has "status" entries && dict_has "msg" entries = false
  /\ dict_has "error" entries = false
  /\ dict_has "temp" entries = true
  /\ dict_has "hum" entries = true
  /\ is_number (dict_get "temp" VNone entries) = true
  /\ is_number (dict_get "hum" VNone entries) = true
  /\ is_number (dict_get "dust" (VInt 0) entries) = true
  /\ is_number (dict_get "pressure" (VInt 0) entries) = true.
Proof.
  unfold reading_line; intros H.
  repeat (apply andb_prop in H; destruct H as [H ?]).
  apply negb_true_iff in H.
  match goal with E : negb _ = true |- _ => apply negb_true_iff in E end.
  repeat split; assumption.
Qed.

Lemma getitem_present (key : string) (entries : list (string * value)) :
  dict_has key entries = true ->
  py_getitem (VDict entries) key = Ok (dict_get key VNone entries).
Proof.
  unfold dict_has, dict_get, py_getitem.
  destruct (lookup key entries); [reflexivity | discriminate].
Qed.

(** The threshold chain run on a reading line: it ends normally with the
    text of the first matching rule and the store its alert leaves. *)
Lemma alert_chain_reading (entries : list (string * value)) (now : Clock)
    (s : State) :
  reading_line entries = true ->
  alert_chain (VDict entries) now s =
    (Next (alert_text (evaluate_line entries)),
     with_db (alerted (evaluate_line entries) entries now (db s)) s).
Proof.
  intros H.
  destruct (reading_line_inv _ H) as (_ & _ & Ht & Hh & Nt & Nh & Nd & Np).
  unfold alert_chain, evaluate_line, evaluate, alerted, bind, eval, py_or,
    call_save_alert, ret, py_get.
  rewrite (getitem_present _ _ Ht), (number_gt _ 40 Nt).
  destruct (exceeds (dict_get "temp" VNone entries) 40); [reflexivity |].
  rewrite (getitem_present _ _ Hh), (number_gt _ 80 Nh).
  destruct (exceeds (dict_get "hum" VNone entries) 80); [reflexivity |].
  rewrite (number_gt _ 150 Nd).
  destruct (exceeds (dict_get "dust" (VInt 0) entries) 150); [reflexivity |].
  rewrite (number_gt _ 35 Np), (number_lt _ 5 Np).
  destruct (exceeds (dict_get "pressure" (VInt 0) entries) 35); simpl.
  - reflexivity.
  - destruct (below (dict_get "pressure" (VInt 0) entries) 5); simpl.
    + reflexivity.
    + now rewrite with_db_same.
Qed.

Lemma alerts_alerted (r : Rule) (entries : list (string * value))
    (now : Clock) (d : Database) :
  alerts (alerted r entries now d) = alerts d ++ logged_alerts r entries now d
  /\ readings (alerted r entries now d) = readings d
  /\ db_online (alerted r entries now d) = db_online d.
Proof.
  unfold alerted, logged_alerts, save_alert.
  destruct (alert_message r entries); [destruct (db_online d) eqn:E |];
    simpl; rewrite ?app_nil_r; auto.
Qed.

(** What the read loop does with a reading line: it ends normally, the
    snapshot is [published], the store has gone through [save_alert] and
    [save_reading], and each value the snapshot held on the way mixes the
    fields it had before with those it ends with. *)
Lemma handle_reading_line (entries tentries : list (string * value))
    (now : Clock) (s : State) :
  reading_line entries = true ->
  tracker_after entries (current_data s) = VDict tentries ->
  exists mids,
    handle_line (Text (Some (VDict entries))) now s =
      (Next tt,
       {| current_data := published entries now (current_data s);
          visible := mids ++ visible s;
          db := fst (save_reading (reading_row entries tentries now)
                       (alerted (evaluate_line entries) entries now (db s)));
          phase := phase s;
          ser := ser s;
          arduino_found := arduino_found s;
          effects := effects s |})
    /\ Forall (mixes (current_data s) (published entries now (current_data s))) mids.
Proof.
  intros H Htr.
  destruct (reading_line_inv _ H) as (Hc & He & Ht & Hh & _).
  unfold handle_line.
  unfold py_and, bind, eval, store, load, ret, py_in, py_get, call_save_reading.
  rewrite He, Ht, Hh.
  rewrite (getitem_present _ _ Ht), (getitem_present _ _ Hh).
  unfold published, tracker_after in *.
  assert (Hctl : (if dict_has "status" entries then dict_has "msg" entries else false) = false).
  { destruct (dict_has "status" entries); [exact Hc | reflexivity]. }
  destruct (dict_has "tracker" entries) eqn:Hk.
  - rewrite (getitem_present _ _ Hk).
    assert (Hd : dict_get "tracker" (tracker (current_data s)) entries = dict_get "tracker" VNone entries).
    { unfold dict_has, dict_get in *. destruct (lookup "tracker" entries); [reflexivity | discriminate]. }
    rewrite Hd in *.
    destruct (dict_has "status" entries); rewrite ?Hctl;
      rewrite (alert_chain_reading _ _ _ H); cbn; rewrite Htr; cbn;
      (eexists [_; _; _; _; _; _; _; _; _]; split; [reflexivity |]);
      repeat apply Forall_cons; try apply Forall_nil; unfold mixes; cbn; repeat split; auto.
  - assert (Hd : dict_get "tracker" (tracker (current_data s)) entries = tracker (current_data s)).
    { unfold dict_has, dict_get in *. destruct (lookup "tracker" entries); [discriminate | reflexivity]. }
    rewrite Hd in *.
    destruct (dict_has "status" entries); rewrite ?Hctl;
      rewrite (alert_chain_reading _ _ _ H); cbn; rewrite Htr; cbn;
      rewrite <- Htr;
      (eexists [_; _; _; _; _; _; _; _]; split; [reflexivity |]);
      repeat apply Forall_cons; try apply Forall_nil; unfold mixes; cbn; repeat split; auto.
Qed.

(** *** What the line handler never touches *)

Lemma frame_refl (s : State) : frame s s.
Proof. repeat split. Qed.

Lemma frame_trans (s1 s2 s3 : State) :
  frame s1 s2 -> frame s2 s3 -> frame s1 s3.
Proof.
  unfold frame; intros (A1 & A2 & A3 & A4) (B1 & B2 & B3 & B4).
  repeat split; congruence.
Qed.

Lemma framed_ret {A : Type} (a : A) : framed (ret a).
Proof. intros s; apply frame_refl. Qed.

Lemma framed_continue {A : Type} : framed (@continue A).
Proof. intros s; apply frame_refl. Qed.

Lemma framed_eval {A : Type} (r : Res A) : framed (eval r).
Proof. intros s; unfold eval; destruct r; apply frame_refl. Qed.

Lemma framed_store (f : Snapshot -> Snapshot) : framed (store f).
Proof. intros s; repeat split. Qed.

Lemma framed_load : framed load.
Proof. intros s; apply frame_refl. Qed.

Lemma framed_save_alert (now : Clock) (m : list Piece) (level : string) :
  framed (call_save_alert now m level).
Proof. intros s; repeat split. Qed.

Lemma framed_save_reading (r : ReadingRow) : framed (call_save_reading r).
Proof. intros s; repeat split. Qed.

Lemma framed_bind {A B : Type} (c : M A) (k : A -> M B) :
  framed c -> (forall a, framed (k a)) -> framed (bind c k).
Proof.
  intros Hc Hk s. unfold bind.
  specialize (Hc s). destruct (c s) as [[a | | e] s1]; simpl in Hc.
  - eapply frame_trans; [exact Hc | apply Hk].
  - exact Hc.
  - exact Hc.
Qed.

Lemma framed_if {A : Type} (b : bool) (c1 c2 : M A) :
  framed c1 -> framed c2 -> framed (if b then c1 else c2).
Proof. destruct b; auto. Qed.

Create HintDb framed.
#[local] Hint Resolve framed_ret framed_continue framed_eval framed_store
  framed_load framed_save_alert framed_save_reading : framed.

Ltac framed :=
  repeat first
    [ apply framed_bind; [| intros ?]
    | apply framed_if
    | solve [auto with framed] ].

Lemma framed_alert_chain (data : value) (now : Clock) :
  framed (alert_chain data now).
Proof. unfold alert_chain, py_or; framed. Qed.

Lemma framed_handle_line (line : Line) (now : Clock) :
  framed (handle_line line now).
Proof.
  unfold handle_line.
  destruct line as [| [data |]]; try apply framed_continue.
  unfold py_and.
  pose proof (framed_alert_chain data now).
  framed.
Qed.

(** *** Invariants of the worker *)

Lemma idle_boot (d : Database) : idle_invariant (boot d).
Proof. split; [reflexivity | discriminate]. Qed.

Lemma idle_back_to_discovery (s : State) :
  phase s = Discovering -> connected (current_data s) = false ->
  idle_invariant s.
Proof.
  intros Hp Hc; split; [intros _; exact Hc | intros n Hn; congruence].
Qed.

Lemma no_data_spec (s : State) :
  phase (no_data s) = Discovering
  /\ connected (current_data (no_data s)) = false.
Proof. unfold no_data; destruct (ser s); split; reflexivity. Qed.

Lemma idle_waiting (n : nat) (s : State) :
  idle_invariant s -> phase s = Probing n -> idle_invariant (waiting n s).
Proof.
  intros [Hc Hs] Hp. unfold waiting.
  destruct (S n <? 10)%nat eqn:E.
  - apply Nat.ltb_lt in E. split.
    + intros _. cbn. apply Hc. rewrite Hp; discriminate.
    + intros m Hm. cbn in Hm. injection Hm as <-. split; [exact E |].
      destruct (Hs n Hp) as [_ [p Hser]]. exists p. exact Hser.
  - apply idle_back_to_discovery; apply no_data_spec.
Qed.

Lemma idle_step (s : State) (e : Event) :
  idle_invariant s -> idle_invariant (step s e).
Proof.
  intros I. unfold step.
  destruct (phase s) as [| n |] eqn:Hp; destruct e as [d | p]; try exact I.
  - (* discovery *)
    destruct d; cbn; try (apply idle_back_to_discovery; [cbn; auto | reflexivity]).
    split.
    + intros _. cbn. apply (proj1 I). rewrite Hp; discriminate.
    + intros m Hm. cbn in Hm. injection Hm as <-. split; [lia | now exists p].
  - (* probe loop *)
    unfold probe. destruct (n <? 10)%nat.
    + destruct p as [| [| decoded] now | |].
      * now apply idle_waiting.
      * now apply idle_waiting.
      * split; [intros C; now elim C | discriminate].
      * apply idle_back_to_discovery; reflexivity.
      * apply idle_back_to_discovery; reflexivity.
    + apply idle_back_to_discovery; apply no_data_spec.
  - (* read loop *)
    unfold read. destruct p as [| line now | |].
    + split; [intros C; now elim C | cbn; congruence].
    + pose proof (framed_handle_line line now s) as F.
      destruct (handle_line line now s) as [[[] | | x] s']; simpl in F;
        destruct F as (Fp & _).
      * split; [intros C; cbn in C; congruence | cbn; congruence].
      * split; [intros C; congruence | congruence].
      * apply idle_back_to_discovery; reflexivity.
    + apply idle_back_to_discovery; reflexivity.
    + apply idle_back_to_discovery; reflexivity.
Qed.

Lemma idle_run (es : list Event) (s : State) :
  idle_invariant s -> idle_invariant (run s es).
Proof.
  revert s. induction es as [| e es IH]; intros s I; [exact I |].
  apply IH, idle_step, I.
Qed.

Lemma idle_reachable (s : State) : reachable s -> idle_invariant s.
Proof. intros (d & es & ->). apply idle_run, idle_boot. Qed.

(** *** The probe loop *)

Lemma run_app (s : State) (es es' : list Event) :
  run s (es ++ es') = run (run s es) es'.
Proof. apply fold_left_app. Qed.

Lemma probe_silent (n : nat) (e : Event) (s : State) :
  phase s = Probing n -> (n < 10)%nat -> silent e = true ->
  step s e = waiting n s.
Proof.
  intros Hp Hn He. unfold step. rewrite Hp.
  destruct e as [d | [| [| decoded] now | |]]; try discriminate;
    unfold probe; apply Nat.ltb_lt in Hn; now rewrite Hn.
Qed.

Lemma waiting_again (n : nat) (s : State) :
  (S n < 10)%nat -> waiting n s = with_phase (Probing (S n)) (sleep 1000 s).
Proof.
  intros H. unfold waiting. apply Nat.ltb_lt in H. now rewrite H.
Qed.

Lemma waiting_last (s : State) : waiting 9 s = no_data (sleep 1000 s).
Proof. reflexivity. Qed.

(** Silent polls short of the tenth only count and sleep. *)
Lemma silent_polls (silence : list Event) (n : nat) (s : State) :
  phase s = Probing n -> forallb silent silence = true ->
  (n + length silence < 10)%nat ->
  phase (run s silence) = Probing (n + length silence)
  /\ current_data (run s silence) = current_data s
  /\ visible (run s silence) = visible s
  /\ db (run s silence) = db s
  /\ ser (run s silence) = ser s
  /\ effects (run s silence) = effects s ++ repeat (Sleep 1000) (length silence).
Proof.
  revert n s. induction silence as [| e es IH]; intros n s Hp Hs Hn.
  - simpl. rewrite Nat.add_0_r, app_nil_r. repeat split; auto.
  - simpl in Hs, Hn. apply andb_prop in Hs. destruct Hs as [He Hes].
    change (run s (e :: es)) with (run (step s e) es).
    rewrite (probe_silent n e s Hp) by (assumption || lia).
    rewrite waiting_again by lia.
    destruct (IH (S n) (with_phase (Probing (S n)) (sleep 1000 s)))
      as (A & B & C & D & E & F); [reflexivity | assumption | lia |].
    rewrite A, B, C, D, E, F. cbn [length repeat].
    replace (n + S (length es))%nat with (S n + length es)%nat by lia.
    repeat split. cbn. now rewrite <- app_assoc.
Qed.

(** C7. In the probe loop, entered after the two-second settle delay, the
    worker makes at most ten attempts of one second each.  While fewer than
    ten silent polls have gone by it is still probing with the
    connectivity flag down, and the first non-empty line takes it to the
    read loop with the flag up.  After the tenth silent poll the port is
    closed, the flag is down with the no-data status, and the worker is
    back at discovery. *)
Theorem probe_window (s : State) (p : string) (silence : list Event) :
  reachable s -> phase s = Discovering -> forallb silent silence = true ->
  let s0 := step s (Locate (Opened p)) in
  phase s0 = Probing 0
  /\ effects s0 = effects s ++ [SerialOpen p; Sleep 2000]
  /\ ((length silence < 10)%nat ->
      phase (run s0 silence) = Probing (length silence)
      /\ connected (current_data (run s0 silence)) = false
      /\ effects (run s0 silence) = effects s0 ++ repeat (Sleep 1000) (length silence)
      /\ forall decoded now,
           let s1 := step (run s0 silence) (Polled (Readline (Text decoded) now)) in
           phase s1 = Connected /\ connected (current_data s1) = true)
  /\ (length silence = 10%nat ->
      let s1 := run s0 silence in
      phase s1 = Discovering
      /\ connected (current_data s1) = false
      /\ status (current_data s1) = "❌ No data - Upload sketch!"
      /\ ser s1 = Some {| port := p; is_open := false |}
      /\ effects s1 = effects s0 ++ repeat (Sleep 1000) 10 ++ [SerialClose p; Sleep 5000]).
Proof.
  intros R Hp Hs s0.
  assert (H0 : phase s0 = Probing 0) by (unfold s0, step; now rewrite Hp).
  assert (Hc : connected (current_data s0) = false).
  { unfold s0, step. rewrite Hp. cbn.
    apply (proj1 (idle_reachable s R)). rewrite Hp; discriminate. }
  assert (Hser : ser s0 = Some {| port := p; is_open := true |})
    by (unfold s0, step; now rewrite Hp).
  split; [exact H0 |]. split.
  { unfold s0, step. rewrite Hp. cbn. now rewrite <- app_assoc. }
  split.
  - intros Hn.
    destruct (silent_polls silence 0 s0 H0 Hs Hn) as (A & B & _ & _ & _ & F).
    cbn in A. repeat split; try assumption; try congruence.
    + unfold step. rewrite A. unfold probe.
      apply Nat.ltb_lt in Hn. now rewrite Hn.
    + unfold step. rewrite A. unfold probe.
      apply Nat.ltb_lt in Hn. now rewrite Hn.
  - intros Hn.
    destruct (exists_last (l := silence)) as (es & e & ->);
      [intros ->; discriminate |].
    rewrite length_app in Hn. simpl in Hn.
    rewrite forallb_app in Hs. apply andb_prop in Hs. destruct Hs as [Hes He].
    simpl in He. rewrite andb_true_r in He.
    destruct (silent_polls es 0 s0 H0 Hes) as (A & B & _ & _ & E & F); [lia |].
    replace (length es) with 9%nat in * by lia. cbn in A.
    cbn zeta. rewrite run_app.
    change (run (run s0 es) [e]) with (step (run s0 es) e).
    rewrite (probe_silent 9 e _ A) by (assumption || lia).
    rewrite waiting_last. unfold no_data. cbn [ser sleep emit].
    rewrite E, Hser. cbn. rewrite F.
    repeat split. now rewrite <- !app_assoc.
Qed.

Lemma probe_window_witness :
  phase (run (step (boot empty_db) (Locate (Opened "COM3")))
           (repeat (Polled NoData) 10)) = Discovering.
Proof.
  apply (probe_window (boot empty_db) "COM3" (repeat (Polled NoData) 10)).
  - exists empty_db, []. reflexivity.
  - reflexivity.
  - reflexivity.
  - reflexivity.
Defined.

(** *** The first line of the probe loop *)

(** C10. The first non-empty line met in the probe loop only confirms the
    device: whatever [json.loads] would make of it, the step is the same
    as for a line that is not JSON at all, the store is untouched, and in
    the snapshot only the connectivity flag and the status line change. *)
Theorem probe_line_discarded (s : State) (n : nat) (decoded : option value)
    (now : Clock) :
  phase s = Probing n -> (n < 10)%nat ->
  let s' := step s (Polled (Readline (Text decoded) now)) in
  s' = step s (Polled (Readline (Text None) now))
  /\ phase s' = Connected
  /\ db s' = db s
  /\ keeps_readings (current_data s) (current_data s')
  /\ connected (current_data s') = true
  /\ status (current_data s') = "Connected ✓".
Proof.
  intros Hp Hn. unfold step. rewrite Hp. unfold probe.
  apply Nat.ltb_lt in Hn. rewrite Hn. cbn.
  repeat split.
Qed.

Lemma probe_line_discarded_witness :
  db (step (step (boot empty_db) (Locate (Opened "COM3")))
        (Polled (Readline (Text (Some (VDict [("temp", VInt 41); ("hum", VInt 50)]))) noon)))
  = empty_db.
Proof.
  apply (probe_line_discarded (step (boot empty_db) (Locate (Opened "COM3"))) 0
           (Some (VDict [("temp", VInt 41); ("hum", VInt 50)])) noon).
  - reflexivity.
  - repeat constructor.
Defined.

(** *** Losing the device *)

(** C6, as the code has it.  An exception from the port inside the read
    loop lowers the connectivity flag, sets the status to
    [Connection lost] and sends the worker back to discovery; the port is
    left as it was: [close] is not called on it, unlike on the no-data
    exit of the probe loop. *)
Theorem read_failure_keeps_port_open (s : State) (p : Poll) :
  phase s = Connected -> p = SerialException \/ p = OtherException ->
  let s' := step s (Polled p) in
  phase s' = Discovering
  /\ connected (current_data s') = false
  /\ status (current_data s') = "Connection lost"
  /\ ser s' = ser s
  /\ effects s' = effects s.
Proof.
  intros Hp [-> | ->]; unfold step; rewrite Hp; cbn; repeat split.
Qed.

Lemma read_failure_keeps_port_open_witness :
  ser (step listening (Polled SerialException))
  = Some {| port := "COM3"; is_open := true |}.
Proof.
  apply (read_failure_keeps_port_open listening SerialException).
  - reflexivity.
  - left; reflexivity.
Defined.

(** C8, amended.  On every step that cuts the worker off from the device
    the snapshot is what it was with the connectivity flag lowered and the
    status line rewritten to that step's text: measurements, time, alert
    text and tracker sub-state keep the values they last held. *)
Theorem disconnection_keeps_readings (s : State) (e : Event) :
  disconnects s e = true ->
  current_data (step s e)
  = set_status (disconnect_status s e) (set_connected false (current_data s))
  /\ keeps_readings (current_data s) (current_data (step s e))
  /\ connected (current_data (step s e)) = false
  /\ status (current_data (step s e)) = disconnect_status s e
  /\ phase (step s e) = Discovering.
Proof.
  intros H.
  assert (E : current_data (step s e)
              = set_status (disconnect_status s e)
                  (set_connected false (current_data s))
              /\ phase (step s e) = Discovering).
  { revert H. unfold disconnects, disconnect_status, step, probe.
    destruct (phase s) as [| n |] eqn:Hp;
      destruct e as [[| | p | p | p] | [| [| d] now | |]];
      try discriminate; intros H;
      try (split; [reflexivity | first [assumption | reflexivity]]);
      try (apply Nat.eqb_eq in H; subst n; cbn; unfold no_data;
           destruct (ser s); cbn; split; reflexivity);
      (destruct (n <? 10)%nat; [split; reflexivity |]);
      unfold no_data; destruct (ser s); cbn; split; reflexivity. }
  destruct E as [E P]. rewrite E.
  split; [reflexivity |]. split; [repeat split |].
  split; [reflexivity |]. split; [reflexivity | exact P].
Qed.

Lemma disconnection_keeps_readings_witness :
  temperature (current_data (step after_warm_reading (Polled OtherException)))
  = VInt 30
  /\ humidity (current_data (step after_warm_reading (Polled OtherException)))
     = VInt 60
  /\ time (current_data (step after_warm_reading (Polled OtherException)))
     = "12:00:00"
  /\ status (current_data (step after_warm_reading (Polled OtherException)))
     = "Connection lost"
  /\ connected (current_data (step after_warm_reading (Polled OtherException)))
     = false.
Proof.
  destruct (disconnection_keeps_readings after_warm_reading (Polled OtherException))
    as (_ & (T & H & _ & _ & M & _) & C & S & _).
  - vm_compute. reflexivity.
  - rewrite T, H, M, S. vm_compute. repeat split; exact C.
Defined.

(** *** The history route *)

Lemma filter_none {A : Type} (f : A -> bool) (l : list A) :
  (forall x, In x l -> f x = false) -> filter f l = [].
Proof.
  induction l as [| a l IH]; intros H; [reflexivity |].
  simpl. rewrite (H a) by (left; reflexivity).
  apply IH. intros x Hx. apply H. right; exact Hx.
Qed.

(** C9. With a window of zero hours the history route answers with the
    empty sequence, whenever no stored reading is stamped later than the
    time of the query (and the store answers at all). *)
Theorem zero_window_history (now : Z) (d : Database) :
  db_online d = true ->
  (forall r, In r (readings d) -> r_timestamp r <= now) ->
  get_history 0 now d = HistoryRows [].
Proof.
  intros Hon Hts. unfold get_history, select_history, window_start.
  rewrite Hon. cbn [andb fits_int64 Z.ltb Z.compare orb].
  change (fits_int64 0) with true.
  destruct (now - 3600 * 0 <? sqlite_first_second); [reflexivity |].
  rewrite filter_none; [reflexivity |].
  intros r Hr. apply Z.ltb_ge. specialize (Hts r Hr). lia.
Qed.

(** *** Lines that are not readings *)

Lemma step_connected (s : State) (p : Poll) :
  phase s = Connected -> step s (Polled p) = read p s.
Proof. intros Hp. unfold step. now rewrite Hp. Qed.

(** C4, amended.  A JSON object with an [error] key and without the
    [status]/[msg] pair, whether or not it also carries [temp] and [hum],
    puts the error value in the snapshot's alert field and does nothing
    else: no row is stored, the other snapshot fields stay, and the worker
    remains in its read loop.  The error value is one [print] can write,
    as every [value] is. *)
Theorem error_line (s : State) (entries : list (string * value)) (now : Clock) :
  phase s = Connected ->
  dict_has "error" entries = true ->
  dict_has "status" entries && dict_has "msg" entries = false ->
  let s' := step s (object_line entries now) in
  current_data s' = set_alert (dict_get "error" VNone entries) (current_data s)
  /\ db s' = db s
  /\ phase s' = Connected
  /\ ser s' = ser s.
Proof.
  intros Hp He Hc. unfold object_line. rewrite (step_connected _ _ Hp).
  unfold read, handle_line, py_and, bind, eval, store, ret, continue, py_in.
  rewrite He, (getitem_present _ _ He).
  destruct (dict_has "status" entries); simpl in Hc; rewrite ?Hc; cbn;
    repeat split; assumption.
Qed.

Lemma error_line_witness :
  alert (current_data (step listening (object_line faulty noon)))
  = VStr "DHT read failed"
  /\ db (step listening (object_line faulty noon)) = empty_db.
Proof.
  destruct (error_line listening faulty noon) as (A & B & _).
  - reflexivity.
  - reflexivity.
  - reflexivity.
  - split; [rewrite A; reflexivity | rewrite B; reflexivity].
Defined.

(** C4 as stated fails on an object that has an [error] key next to a
    [status]/[msg] pair: the line is taken for a status message and the
    alert field keeps its text. *)
Lemma error_key_in_status_message :
  dict_has "error" status_with_error = true
  /\ alert (current_data (step listening (object_line status_with_error noon)))
     = alert (current_data listening)
  /\ alert (current_data (step listening (object_line status_with_error noon)))
     <> VStr "DHT read failed".
Proof. repeat split. discriminate. Qed.

Lemma zero_window_history_witness :
  get_history 0 43200 one_reading_db = HistoryRows [].
Proof.
  apply zero_window_history.
  - reflexivity.
  - intros r [<- | []]. apply Z.le_refl.
Defined.

(** The part of C3 the code keeps: an empty line, a line on which
    [json.loads] raises [JSONDecodeError], and a JSON object lacking
    [temp] or [hum] leave the worker in its
    read loop, store nothing, and leave the measurements in the snapshot
    alone. *)
Lemma skipped_lines (s : State) (line : Line) (now : Clock) :
  phase s = Connected ->
  match line with
  | Blank | Text None => True
  | Text (Some (VDict entries)) =>
      dict_has "temp" entries && dict_has "hum" entries = false
  | Text (Some _) => False
  end ->
  let s' := step s (Polled (Readline line now)) in
  phase s' = Connected
  /\ db s' = db s
  /\ temperature (current_data s') = temperature (current_data s)
  /\ humidity (current_data s') = humidity (current_data s)
  /\ dust (current_data s') = dust (current_data s)
  /\ pressure (current_data s') = pressure (current_data s)
  /\ tracker (current_data s') = tracker (current_data s).
Proof.
  intros Hp H. rewrite (step_connected _ _ Hp).
  destruct line as [| [data |]]; try (cbn; repeat split; assumption).
  destruct data as [| | | | | | entries]; try contradiction.
  unfold read, handle_line, py_and, bind, eval, store, ret, continue, py_in.
  destruct (dict_has "status" entries) eqn:Es;
    [destruct (dict_has "msg" entries) eqn:Em |].
  - rewrite (getitem_present _ _ Em). cbn. repeat split; assumption.
  - destruct (dict_has "error" entries) eqn:Ee.
    + rewrite (getitem_present _ _ Ee). cbn. repeat split; assumption.
    + destruct (dict_has "temp" entries); simpl in H; rewrite ?H; cbn;
        repeat split; assumption.
  - destruct (dict_has "error" entries) eqn:Ee.
    + rewrite (getitem_present _ _ Ee). cbn. repeat split; assumption.
    + destruct (dict_has "temp" entries); simpl in H; rewrite ?H; cbn;
        repeat split; assumption.
Qed.

(** C3, where the code departs from it.  A line holding a bare JSON
    number decodes without error, the membership test on it raises
    [TypeError], and the read loop takes that for a lost connection: the
    flag goes down and the worker leaves for discovery. *)
Theorem bare_number_drops_link :
  let s' := step listening (Polled (Readline (Text (Some (VInt 512))) noon)) in
  phase listening = Connected
  /\ connected (current_data listening) = true
  /\ phase s' = Discovering
  /\ connected (current_data s') = false
  /\ status (current_data s') = "Connection lost".
Proof. repeat split. Qed.

(** *** Reading lines in the read loop *)

(** One pass of the read loop over a reading line. *)
Lemma step_reading (s : State) (entries tentries : list (string * value))
    (now : Clock) :
  phase s = Connected ->
  reading_line entries = true ->
  tracker_after entries (current_data s) = VDict tentries ->
  let s' := step s (object_line entries now) in
  current_data s' = published entries now (current_data s)
  /\ db s' = fst (save_reading (reading_row entries tentries now)
                   (alerted (evaluate_line entries) entries now (db s)))
  /\ phase s' = Connected
  /\ ser s' = ser s
  /\ effects s' = effects s ++ [Sleep 100]
  /\ exists mids,
       visible s' = mids ++ visible s
       /\ Forall (mixes (current_data s) (current_data s')) mids.
Proof.
  intros Hp H Htr. unfold object_line. rewrite (step_connected _ _ Hp).
  destruct (handle_reading_line entries tentries now s H Htr) as (mids & E & F).
  unfold read. rewrite E. cbn.
  repeat split; try assumption.
  exists mids. split; [reflexivity | exact F].
Qed.

Lemma save_reading_alerts (r : ReadingRow) (d : Database) :
  alerts (fst (save_reading r d)) = alerts d.
Proof. unfold save_reading. destruct (db_online d && row_bindable r); reflexivity. Qed.

(** C2. On a validated reading the alert evaluation ends normally with
    the first rule that matches, in the order temperature above 40,
    humidity above 80, dust above 150, pressure above 35 or below 5,
    normal.  The snapshot's alert field takes that rule's text.  Each of
    the four threshold rules hands one row of level [WARNING] to the alert
    log (appended when the store takes the write); the normal case logs
    nothing. *)
Theorem alert_evaluation (s : State) (entries tentries : list (string * value))
    (now : Clock) :
  phase s = Connected ->
  reading_line entries = true ->
  tracker_after entries (current_data s) = VDict tentries ->
  let temp := dict_get "temp" VNone entries in
  let hum := dict_get "hum" VNone entries in
  let dust_density := dict_get "dust" (VInt 0) entries in
  let air_pressure := dict_get "pressure" (VInt 0) entries in
  let rule := evaluate temp hum dust_density air_pressure in
  let s' := step s (object_line entries now) in
  (* total and deterministic *)
  alert_chain (VDict entries) now s =
    (Next (alert_text rule), with_db (alerted rule entries now (db s)) s)
  (* first match in priority order *)
  /\ (exceeds temp 40 = true -> rule = HighTemperature)
  /\ (exceeds temp 40 = false -> exceeds hum 80 = true -> rule = HighHumidity)
  /\ (exceeds temp 40 = false -> exceeds hum 80 = false ->
      exceeds dust_density 150 = true -> rule = PoorAirQuality)
  /\ (exceeds temp 40 = false -> exceeds hum 80 = false ->
      exceeds dust_density 150 = false ->
      exceeds air_pressure 35 = true \/ below air_pressure 5 = true ->
      rule = AbnormalPressure)
  /\ (exceeds temp 40 = false -> exceeds hum 80 = false ->
      exceeds dust_density 150 = false ->
      exceeds air_pressure 35 = false -> below air_pressure 5 = false ->
      rule = AllNormal)
  (* snapshot and alert log *)
  /\ alert (current_data s') = VStr (alert_text rule)
  /\ (rule = AllNormal ->
      alert (current_data s') = VStr "✅ All systems normal"
      /\ alerts (db s') = alerts (db s))
  /\ (rule <> AllNormal ->
      exists message,
        alert_message rule entries = Some message
        /\ alerts (db s') =
             alerts (db s) ++
             (if db_online (db s)
              then [{| a_timestamp := current_timestamp now;
                       a_message := message;
                       a_level := "WARNING" |}]
              else [])).
Proof.
  intros Hp H Htr temp hum dust_density air_pressure rule s'.
  destruct (step_reading s entries tentries now Hp H Htr) as (C & D & _).
  fold s' in C, D.
  assert (A : alerts (db s') =
              alerts (db s) ++ logged_alerts rule entries now (db s)).
  { rewrite D, save_reading_alerts. apply alerts_alerted. }
  split; [exact (alert_chain_reading entries now s H) |].
  unfold rule, evaluate.
  split; [intros ->; reflexivity |].
  split; [intros -> ->; reflexivity |].
  split; [intros -> -> ->; reflexivity |].
  split; [intros -> -> -> [-> | ->]; rewrite ?orb_true_r; reflexivity |].
  split; [intros -> -> -> -> ->; reflexivity |].
  fold (evaluate temp hum dust_density air_pressure). fold rule.
  split; [rewrite C; reflexivity |].
  split.
  - intros R. split.
    + rewrite C. cbn. unfold evaluate_line.
      fold temp hum dust_density air_pressure rule. now rewrite R.
    + rewrite A, R. cbn. apply app_nil_r.
  - intros R. rewrite A. unfold logged_alerts.
    destruct rule; try (now elim R); eexists; split; reflexivity.
Qed.

Lemma alert_evaluation_witness :
  alert (current_data (step listening (object_line hot noon)))
  = VStr "🔥 High temperature!".
Proof.
  pose proof (alert_evaluation listening hot initial_tracker_entries noon
                eq_refl eq_refl eq_refl) as (_ & _ & _ & _ & _ & _ & A & _).
  exact A.
Defined.

(** C5, amended.  A reading line hands [save_reading] one row: the
    line's [temp] and [hum], its [dust] and [pressure] or 0 for each that
    is absent, the status tag [OK], the store's timestamp, and the tracker
    columns read from the tracker sub-state the snapshot holds after the
    line (the line's own [tracker] object when it has one, the retained
    one otherwise), with 90, 0, 0, 0 and [UNKNOWN] for the keys that
    sub-state lacks.  The row is appended when the store takes the
    write. *)
Theorem stored_reading (s : State) (entries tentries : list (string * value))
    (now : Clock) :
  phase s = Connected ->
  reading_line entries = true ->
  tracker_after entries (current_data s) = VDict tentries ->
  let s' := step s (object_line entries now) in
  let row :=
    {| r_timestamp := current_timestamp now;
       r_temperature := dict_get "temp" VNone entries;
       r_humidity := dict_get "hum" VNone entries;
       r_dust_density := dict_get "dust" (VInt 0) entries;
       r_air_pressure := dict_get "pressure" (VInt 0) entries;
       r_tracker_angle := dict_get "angle" (VInt 90) tentries;
       r_ldr_left := dict_get "ldr_left" (VInt 0) tentries;
       r_ldr_right := dict_get "ldr_right" (VInt 0) tentries;
       r_light_diff := dict_get "diff" (VInt 0) tentries;
       r_tracker_status := dict_get "status" (VStr "UNKNOWN") tentries;
       r_status := "OK" |} in
  db s' = fst (save_reading row (alerted (evaluate_line entries) entries now (db s)))
  /\ (db_online (db s) = true -> row_bindable row = true ->
      readings (db s') = readings (db s) ++ [row])
  /\ tracker (current_data s') = VDict tentries
  /\ (dict_has "tracker" entries = true ->
      dict_get "tracker" VNone entries = VDict tentries)
  /\ (dict_has "tracker" entries = false ->
      tracker (current_data s) = VDict tentries).
Proof.
  intros Hp H Htr s' row.
  destruct (step_reading s entries tentries now Hp H Htr) as (C & D & _).
  fold s' in C, D. change (reading_row entries tentries now) with row in D.
  split; [exact D |].
  split.
  - intros Hon Hb. rewrite D. unfold save_reading.
    destruct (alerts_alerted (evaluate_line entries) entries now (db s))
      as (_ & Hr & Ho).
    rewrite Ho, Hon, Hb. cbn. now rewrite Hr.
  - split; [rewrite C; exact Htr |].
    unfold tracker_after, dict_has, dict_get in *.
    destruct (lookup "tracker" entries); split; intros E;
      first [discriminate | exact Htr].
Qed.

Lemma stored_reading_witness :
  readings (db (step listening (object_line mild_tracked noon)))
  = [{| r_timestamp := 43200;
        r_temperature := VInt 20;
        r_humidity := VInt 50;
        r_dust_density := VInt 0;
        r_air_pressure := VInt 0;
        r_tracker_angle := VInt 45;
        r_ldr_left := VInt 0;
        r_ldr_right := VInt 0;
        r_light_diff := VInt 0;
        r_tracker_status := VStr "UNKNOWN";
        r_status := "OK" |}].
Proof.
  pose proof (stored_reading listening mild_tracked [("angle", VInt 45)] noon
                eq_refl eq_refl eq_refl) as (_ & A & _).
  exact (A eq_refl eq_refl).
Defined.

(** C5 as stated fails on the first reading after start-up when it
    carries no [tracker]: the stored tracker status is the snapshot's
    [INITIALIZING], not [UNKNOWN]; and a reading that follows one with a
    tracker angle of 45 is stored with 45, not 90. *)
Lemma retained_tracker_is_stored :
  dict_has "tracker" mild = false
  /\ map r_tracker_status
       (readings (db (step listening (object_line mild noon))))
     = [VStr "INITIALIZING"]
  /\ map r_tracker_angle
       (readings (db (run listening
                        [object_line mild_tracked noon; object_line mild noon])))
     = [VInt 45; VInt 45].
Proof. repeat split. Qed.

(** *** Publication of a reading *)

Lemma tracker_after_dict (entries : list (string * value)) (c : Snapshot) :
  is_dict (tracker c) = true -> well_formed entries = true ->
  exists tentries, tracker_after entries c = VDict tentries.
Proof.
  unfold well_formed, tracker_after, dict_get. intros Hc H.
  apply andb_prop in H. destruct H as [_ H].
  destruct (lookup "tracker" entries) as [t |].
  - destruct t; try discriminate. eauto.
  - destruct (tracker c); try discriminate. eauto.
Qed.

(** Well-formed reading lines keep the worker in its read loop, with a
    tracker object in the snapshot. *)
Lemma well_formed_run (ls : list (list (string * value) * Clock)) (s : State) :
  phase s = Connected -> is_dict (tracker (current_data s)) = true ->
  forallb (fun l => well_formed (fst l)) ls = true ->
  phase (run s (object_lines ls)) = Connected
  /\ is_dict (tracker (current_data (run s (object_lines ls)))) = true.
Proof.
  revert s. induction ls as [| [entries now] ls IH]; intros s Hp Ht Hw.
  - split; assumption.
  - simpl in Hw. apply andb_prop in Hw. destruct Hw as [Hw Hws].
    destruct (tracker_after_dict entries _ Ht Hw) as (tentries & Htr).
    assert (Hr : reading_line entries = true)
      by (unfold well_formed in Hw; apply andb_prop in Hw; tauto).
    destruct (step_reading s entries tentries now Hp Hr Htr) as (C & _ & P & _).
    change (run s (object_lines ((entries, now) :: ls)))
      with (run (step s (object_line entries now)) (object_lines ls)).
    apply IH; try assumption.
    rewrite C. cbn. now rewrite Htr.
Qed.

(** C1, amended.  After each well-formed reading line of a sequence has
    gone through the read loop, the snapshot shows that line's
    temperature, humidity, dust and pressure (0 for an absent dust or
    pressure) and the line's tracker object, or the one it held before
    when the line has none.  The fields are assigned one by one: every
    value the snapshot takes on the way holds, field by field, what it
    held before the line or what it holds after it. *)
Theorem reading_publication (s : State)
    (earlier : list (list (string * value) * Clock))
    (entries : list (string * value)) (now : Clock) :
  phase s = Connected -> is_dict (tracker (current_data s)) = true ->
  forallb (fun l => well_formed (fst l)) earlier = true ->
  well_formed entries = true ->
  let before := run s (object_lines earlier) in
  let after := step before (object_line entries now) in
  reflects (current_data after) entries
  /\ tracker (current_data after)
     = dict_get "tracker" (tracker (current_data before)) entries
  /\ phase after = Connected
  /\ exists mids,
       visible after = mids ++ visible before
       /\ Forall (mixes (current_data before) (current_data after)) mids.
Proof.
  intros Hp Ht Hws Hw before after.
  destruct (well_formed_run earlier s Hp Ht Hws) as (Hp' & Ht').
  fold before in Hp', Ht'.
  destruct (tracker_after_dict entries _ Ht' Hw) as (tentries & Htr).
  assert (Hr : reading_line entries = true)
    by (unfold well_formed in Hw; apply andb_prop in Hw; tauto).
  destruct (step_reading before entries tentries now Hp' Hr Htr)
    as (C & _ & P & _ & _ & V).
  fold after in C, P, V.
  split; [rewrite C; repeat split |].
  split; [rewrite C; reflexivity |].
  split; [exact P | exact V].
Qed.

Lemma reading_publication_witness :
  temperature (current_data (run listening
                 [object_line mild_tracked noon; object_line warm noon]))
  = VInt 30
  /\ tracker (current_data (run listening
                [object_line mild_tracked noon; object_line warm noon]))
     = VDict [("angle", VInt 45)].
Proof.
  pose proof (reading_publication listening [(mild_tracked, noon)] warm noon
                eq_refl eq_refl eq_refl eq_refl) as ((A & _) & B & _).
  split; [exact A | exact B].
Defined.

(** C1 as stated fails.  While the second of two readings is taken in,
    the snapshot passes through a value that was not there before and
    shows neither line: the second line's temperature beside the first
    line's humidity.  And once the second line, which has no tracker, is
    through, the snapshot still carries the first line's tracker. *)
Lemma snapshot_mixes_two_readings :
  let first := step listening (object_line mild_tracked noon) in
  let second := step first (object_line warm noon) in
  (exists m,
      In m (visible second) /\ ~ In m (visible first)
      /\ temperature m = VInt 30 /\ humidity m = VInt 50
      /\ ~ reflects m mild_tracked /\ ~ reflects m warm)
  /\ dict_has "tracker" warm = false
  /\ tracker (current_data second) = dict_get "tracker" VNone mild_tracked.
Proof.
  split; [| split; vm_compute; reflexivity].
  exists (set_temperature (VInt 30)
            (current_data (step listening (object_line mild_tracked noon)))).
  split.
  { apply (nth_error_In _ 7). vm_compute. reflexivity. }
  split.
  { intros H. apply (in_map temperature) in H. vm_compute in H.
    repeat (destruct H as [H | H]; [discriminate H |]). exact H. }
  split; [vm_compute; reflexivity |].
  split; [vm_compute; reflexivity |].
  split; intros (A & B & _); vm_compute in A, B; discriminate.
Qed.

(** C8 as stated fails: a reading, then a read failure, then a discovery
    that finds no port leave the reading in the snapshot, which is not
    the one the process started with. *)
Lemma snapshot_not_reset :
  let s := run listening
             [object_line mild noon; Polled SerialException; Locate NoPort] in
  phase s = Discovering
  /\ connected (current_data s) = false
  /\ temperature (current_data s) = VInt 20
  /\ temperature initial_current_data = VInt 0
  /\ time (current_data s) = "12:00:00"
  /\ current_data s <> initial_current_data.
Proof.
  repeat split; try (vm_compute; reflexivity).
  intros H. apply (f_equal temperature) in H. vm_compute in H. discriminate H.
Qed.

(** ** Further properties of the code *)

(** *** Port discovery *)

Lemma find_first {A : Type} (f : A -> bool) (before after : list A) (x : A) :
  (forall y, In y before -> f y = false) -> f x = true ->
  find f (before ++ x :: after) = Some x.
Proof.
  intros Hb Hx. induction before as [| y before IH]; simpl.
  - now rewrite Hx.
  - rewrite (Hb y) by (left; reflexivity).
    apply IH. intros z Hz. apply Hb. right; exact Hz.
Qed.

Lemma find_nothing {A : Type} (f : A -> bool) (l : list A) :
  (forall y, In y l -> f y = false) -> find f l = None.
Proof.
  intros H. induction l as [| y l IH]; [reflexivity |].
  simpl. rewrite (H y) by (left; reflexivity).
  apply IH. intros z Hz. apply H. right; exact Hz.
Qed.

(** X1. The first listed port whose description contains one of the
    keywords, whatever the case of its letters, is returned, and no port
    is opened to find it. *)
Theorem keyword_port_first (before after : list PortInfo) (p : PortInfo)
    (opens : string -> bool) :
  (forall q, In q before -> looks_like_arduino q = false) ->
  looks_like_arduino p = true ->
  find_arduino_port (before ++ p :: after) opens = (Some (device p), []).
Proof.
  intros Hb Hp. unfold find_arduino_port.
  now rewrite (find_first _ _ _ _ Hb Hp).
Qed.

(** X2. When no description matches, the six well-known port names are
    tried in their fixed order: the first that opens is returned, after
    being closed again, and none is tried after it. *)
Theorem fallback_port (ports : list PortInfo) (before after : list string)
    (c : string) (opens : string -> bool) :
  (forall q, In q ports -> looks_like_arduino q = false) ->
  common_ports = before ++ c :: after ->
  (forall b, In b before -> opens b = false) -> opens c = true ->
  find_arduino_port ports opens = (Some c, [SerialOpen c; SerialClose c]).
Proof.
  intros Hn Hc Hb Ho. unfold find_arduino_port.
  rewrite (find_nothing _ _ Hn), Hc.
  now rewrite (find_first _ _ _ _ Hb Ho).
Qed.

(** X3. No port is reported exactly when no description matches and none
    of the well-known names opens; a reported port is a listed device
    with a matching description or a well-known name that opened, and
    whatever was opened on the way has been closed. *)
Theorem discovery_outcome (ports : list PortInfo) (opens : string -> bool) :
  (fst (find_arduino_port ports opens) = None <->
     (forall q, In q ports -> looks_like_arduino q = false)
     /\ (forall c, In c common_ports -> opens c = false))
  /\ (forall x, fst (find_arduino_port ports opens) = Some x ->
        (exists q, In q ports /\ device q = x /\ looks_like_arduino q = true
                   /\ snd (find_arduino_port ports opens) = [])
        \/ (In x common_ports /\ opens x = true
            /\ snd (find_arduino_port ports opens) = [SerialOpen x; SerialClose x])).
Proof.
  unfold find_arduino_port.
  destruct (find looks_like_arduino ports) as [p |] eqn:Ep.
  - destruct (find_some _ _ Ep) as [Hin Hm]. split.
    + split; [discriminate |]. intros [Hn _].
      rewrite (Hn p Hin) in Hm. discriminate.
    + intros x Hx. injection Hx as <-. left. now exists p.
  - pose proof (find_none _ _ Ep) as Hn.
    destruct (find opens common_ports) as [c |] eqn:Ec.
    + destruct (find_some _ _ Ec) as [Hin Ho]. split.
      * split; [discriminate |]. intros [_ Hc].
        rewrite (Hc c Hin) in Ho. discriminate.
      * intros x Hx. injection Hx as <-. right. auto.
    + split.
      * split; [intros _ | reflexivity].
        split; [exact Hn | exact (find_none _ _ Ec)].
      * discriminate.
Qed.

Lemma keyword_port_first_witness :
  find_arduino_port
    [{| device := "COM1"; description := "Communications Port (COM1)" |};
     {| device := "COM7"; description := "Arduino Uno (COM7)" |};
     {| device := "COM8"; description := "USB-SERIAL CH340 (COM8)" |}]
    (fun _ => true)
  = (Some "COM7", []).
Proof.
  apply (keyword_port_first
           [{| device := "COM1"; description := "Communications Port (COM1)" |}]
           [{| device := "COM8"; description := "USB-SERIAL CH340 (COM8)" |}]
           {| device := "COM7"; description := "Arduino Uno (COM7)" |}).
  - intros q [<- | []]. reflexivity.
  - reflexivity.
Defined.

Lemma fallback_port_witness :
  find_arduino_port
    [{| device := "COM1"; description := "Communications Port (COM1)" |}]
    (fun p => String.eqb p "COM5" || String.eqb p "/dev/ttyACM0")
  = (Some "COM5", [SerialOpen "COM5"; SerialClose "COM5"]).
Proof.
  apply (fallback_port _ ["COM3"; "COM4"] ["COM6"; "/dev/ttyUSB0"; "/dev/ttyACM0"]).
  - intros q [<- | []]. reflexivity.
  - reflexivity.
  - intros b [<- | [<- | []]]; reflexivity.
  - reflexivity.
Defined.

(** *** Ordering of query results *)

Lemma insert_desc_perm (r : ReadingRow) (l : list ReadingRow) :
  Permutation (insert_desc r l) (r :: l).
Proof.
  induction l as [| x l IH]; simpl; [reflexivity |].
  destruct (r_timestamp x <=? r_timestamp r); [reflexivity |].
  rewrite IH. apply perm_swap.
Qed.

Lemma order_desc_perm (l : list ReadingRow) :
  Permutation (order_by_timestamp_desc l) l.
Proof.
  induction l as [| x l IH]; simpl; [reflexivity |].
  rewrite insert_desc_perm. now constructor.
Qed.

Lemma insert_desc_sorted (r : ReadingRow) (l : list ReadingRow) :
  descending (map r_timestamp l) ->
  descending (map r_timestamp (insert_desc r l)).
Proof.
  induction l as [| x l IH]; simpl; intros H.
  - split; [intros u [] | exact I].
  - destruct H as [Hx Hl].
    destruct (r_timestamp x <=? r_timestamp r) eqn:E.
    + apply Z.leb_le in E. simpl. split; [| split; assumption].
      intros u [<- | Hu]; [exact E |]. specialize (Hx u Hu). lia.
    + apply Z.leb_gt in E. simpl. split; [| apply IH; exact Hl].
      intros u Hu.
      apply (Permutation_in _ (Permutation_map r_timestamp (insert_desc_perm r l))) in Hu.
      destruct Hu as [<- | Hu]; [lia | apply Hx; exact Hu].
Qed.

Lemma order_desc_sorted (l : list ReadingRow) :
  descending (map r_timestamp (order_by_timestamp_desc l)).
Proof.
  induction l as [| x l IH]; simpl; [exact I |].
  apply insert_desc_sorted, IH.
Qed.

Lemma insert_alert_perm (a : AlertRow) (l : list AlertRow) :
  Permutation (insert_alert_desc a l) (a :: l).
Proof.
  induction l as [| x l IH]; simpl; [reflexivity |].
  destruct (a_timestamp x <=? a_timestamp a); [reflexivity |].
  rewrite IH. apply perm_swap.
Qed.

Lemma order_alerts_perm (l : list AlertRow) :
  Permutation (order_alerts_desc l) l.
Proof.
  induction l as [| x l IH]; simpl; [reflexivity |].
  rewrite insert_alert_perm. now constructor.
Qed.

Lemma insert_alert_sorted (a : AlertRow) (l : list AlertRow) :
  descending (map a_timestamp l) ->
  descending (map a_timestamp (insert_alert_desc a l)).
Proof.
  induction l as [| x l IH]; simpl; intros H.
  - split; [intros u [] | exact I].
  - destruct H as [Hx Hl].
    destruct (a_timestamp x <=? a_timestamp a) eqn:E.
    + apply Z.leb_le in E. simpl. split; [| split; assumption].
      intros u [<- | Hu]; [exact E |]. specialize (Hx u Hu). lia.
    + apply Z.leb_gt in E. simpl. split; [| apply IH; exact Hl].
      intros u Hu.
      apply (Permutation_in _ (Permutation_map a_timestamp (insert_alert_perm a l))) in Hu.
      destruct Hu as [<- | Hu]; [lia | apply Hx; exact Hu].
Qed.

Lemma order_alerts_sorted (l : list AlertRow) :
  descending (map a_timestamp (order_alerts_desc l)).
Proof.
  induction l as [| x l IH]; simpl; [exact I |].
  apply insert_alert_sorted, IH.
Qed.

Lemma In_firstn {A : Type} (n : nat) (l : list A) (x : A) :
  In x (firstn n l) -> In x l.
Proof.
  revert l. induction n as [| n IH]; intros [| y l]; simpl; try tauto.
  intros [-> | H]; [now left | right; now apply IH].
Qed.

Lemma descending_firstn (n : nat) (ts : list Z) :
  descending ts -> descending (firstn n ts).
Proof.
  revert ts. induction n as [| n IH]; intros [| t ts]; simpl; try tauto.
  intros [Ht Hts]. split; [| now apply IH].
  intros u Hu. apply Ht. eapply In_firstn; exact Hu.
Qed.

Lemma firstn_map {A B : Type} (f : A -> B) (n : nat) (l : list A) :
  firstn n (map f l) = map f (firstn n l).
Proof.
  revert l. induction n as [| n IH]; intros [| x l]; simpl; try reflexivity.
  now rewrite IH.
Qed.

(** *** The alert log route *)

(** X4. Asked for at most [limit] alerts, the alert route returns the
    smaller of [limit] and the number of stored alerts, newest first, and
    each of them is a stored alert. *)
Theorem alerts_within_limit (limit : Z) (d : Database) :
  db_online d = true -> 0 <= limit < 2 ^ 63 ->
  exists rows,
    get_alerts limit d = AlertRows rows
    /\ length rows = Nat.min (Z.to_nat limit) (length (alerts d))
    /\ descending (map a_timestamp rows)
    /\ forall a, In a rows -> In a (alerts d).
Proof.
  intros Hon [Hlo Hhi]. unfold get_alerts, fits_int64, sql_limit.
  rewrite Hon.
  replace (- 2 ^ 63 <=? limit) with true by (symmetry; apply Z.leb_le; lia).
  replace (limit <? 2 ^ 63) with true by (symmetry; apply Z.ltb_lt; lia).
  replace (limit <? 0) with false by (symmetry; apply Z.ltb_ge; lia).
  eexists; split; [reflexivity |]. split; [| split].
  - rewrite length_firstn.
    now rewrite (Permutation_length (order_alerts_perm (alerts d))).
  - rewrite <- firstn_map. apply descending_firstn, order_alerts_sorted.
  - intros a Ha. apply In_firstn in Ha.
    eapply Permutation_in; [apply order_alerts_perm | exact Ha].
Qed.

Lemma alerts_within_limit_witness :
  exists rows, get_alerts 1 two_alerts_db = AlertRows rows /\ length rows = 1%nat.
Proof.
  destruct (alerts_within_limit 1 two_alerts_db) as (rows & E & L & _).
  - reflexivity.
  - split; [discriminate | reflexivity].
  - exists rows. split; [exact E | exact L].
Defined.

Lemma newest_alert_on_top (a : AlertRow) (l : list AlertRow) :
  (forall x, In x l -> a_timestamp x < a_timestamp a) ->
  order_alerts_desc (l ++ [a]) = a :: order_alerts_desc l.
Proof.
  intros H. induction l as [| x l IH]; [reflexivity |].
  simpl. rewrite IH by (intros y Hy; apply H; right; exact Hy).
  simpl. replace (a_timestamp a <=? a_timestamp x) with false; [reflexivity |].
  symmetry. apply Z.leb_gt. apply H. left; reflexivity.
Qed.

(** X5. An alert that [save_alert] has just stored, stamped later than
    every alert already in the log, is the first one the alert route
    returns, for any positive limit. *)
Theorem saved_alert_listed_first (a : AlertRow) (d d' : Database) (limit : Z) :
  save_alert a d = (d', true) ->
  (forall x, In x (alerts d) -> a_timestamp x < a_timestamp a) ->
  0 < limit < 2 ^ 63 ->
  exists rest, get_alerts limit d' = AlertRows (a :: rest).
Proof.
  intros Hs Hnew [Hlo Hhi]. unfold save_alert in Hs.
  destruct (db_online d) eqn:Hon; [| discriminate].
  injection Hs as <-. unfold get_alerts, fits_int64, sql_limit.
  cbn [db_online alerts andb].
  replace (- 2 ^ 63 <=? limit) with true by (symmetry; apply Z.leb_le; lia).
  replace (limit <? 2 ^ 63) with true by (symmetry; apply Z.ltb_lt; lia).
  replace (limit <? 0) with false by (symmetry; apply Z.ltb_ge; lia).
  rewrite (newest_alert_on_top a _ Hnew).
  destruct (Z.to_nat limit) as [| n] eqn:En; [lia |].
  simpl. eexists; reflexivity.
Qed.

Lemma saved_alert_listed_first_witness :
  exists rest,
    get_alerts 50
      (fst (save_alert {| a_timestamp := 46800;
                          a_message := [Lit "Pressure: "; Fmt VNone; Lit "kPa"];
                          a_level := "WARNING" |} two_alerts_db))
    = AlertRows ({| a_timestamp := 46800;
                    a_message := [Lit "Pressure: "; Fmt VNone; Lit "kPa"];
                    a_level := "WARNING" |} :: rest).
Proof.
  apply (saved_alert_listed_first _ two_alerts_db).
  - reflexivity.
  - intros x [<- | [<- | []]]; reflexivity.
  - split; reflexivity.
Defined.

(** *** The statistics route *)

Lemma sql_min_spec (ts : list Z) :
  match sql_min ts with
  | None => ts = []
  | Some m => In m ts /\ forall t, In t ts -> m <= t
  end.
Proof.
  induction ts as [| t ts IH]; [reflexivity |].
  simpl. destruct (sql_min ts) as [m |].
  - destruct IH as [Hin Hle]. split.
    + destruct (Z.min_spec t m) as [[_ ->] | [_ ->]]; [now left | now right].
    + intros u [<- | Hu]; [lia | specialize (Hle u Hu); lia].
  - subst ts. split; [now left |]. intros u [<- | []]. lia.
Qed.

Lemma sql_max_spec (ts : list Z) :
  match sql_max ts with
  | None => ts = []
  | Some m => In m ts /\ forall t, In t ts -> t <= m
  end.
Proof.
  induction ts as [| t ts IH]; [reflexivity |].
  simpl. destruct (sql_max ts) as [m |].
  - destruct IH as [Hin Hle]. split.
    + destruct (Z.max_spec t m) as [[_ ->] | [_ ->]]; [now right | now left].
    + intros u [<- | Hu]; [lia | specialize (Hle u Hu); lia].
  - subst ts. split; [now left |]. intros u [<- | []]. lia.
Qed.

(** X6. The statistics route counts the stored readings; on an empty
    table the oldest and newest timestamps are both null, and otherwise
    they are timestamps of stored readings that bracket all the others. *)
Theorem stats_bracket_readings (d : Database) :
  db_online d = true ->
  exists st,
    get_db_stats d = StatsOk st
    /\ total_readings st = Z.of_nat (length (readings d))
    /\ (readings d = [] -> oldest_reading st = None /\ newest_reading st = None)
    /\ (readings d <> [] ->
        exists lo hi,
          oldest_reading st = Some lo /\ newest_reading st = Some hi
          /\ (exists r, In r (readings d) /\ r_timestamp r = lo)
          /\ (exists r, In r (readings d) /\ r_timestamp r = hi)
          /\ forall r, In r (readings d) -> lo <= r_timestamp r <= hi).
Proof.
  intros Hon. unfold get_db_stats. rewrite Hon.
  eexists; split; [reflexivity |]. cbn [total_readings oldest_reading newest_reading].
  split; [reflexivity |]. split.
  - intros ->. split; reflexivity.
  - intros Hne.
    pose proof (sql_min_spec (map r_timestamp (readings d))) as Hmin.
    pose proof (sql_max_spec (map r_timestamp (readings d))) as Hmax.
    destruct (sql_min (map r_timestamp (readings d))) as [lo |];
      [| destruct (readings d); [now elim Hne | discriminate]].
    destruct (sql_max (map r_timestamp (readings d))) as [hi |];
      [| destruct (readings d); [now elim Hne | discriminate]].
    destruct Hmin as [Il Hl], Hmax as [Ih Hh].
    exists lo, hi. split; [reflexivity |]. split; [reflexivity |].
    apply in_map_iff in Il. destruct Il as (rl & El & Il).
    apply in_map_iff in Ih. destruct Ih as (rh & Eh & Ih).
    split; [now exists rl |]. split; [now exists rh |].
    intros r Hr. split; [apply Hl | apply Hh]; now apply in_map.
Qed.

Lemma stats_bracket_readings_witness :
  exists st,
    get_db_stats one_reading_db = StatsOk st /\ total_readings st = 1.
Proof.
  destruct (stats_bracket_readings one_reading_db) as (st & E & T & _).
  - reflexivity.
  - exists st. split; [exact E | exact T].
Defined.

(** *** The history and export routes *)

Lemma fits_int64_in (n : Z) : 0 <= n < 2 ^ 63 -> fits_int64 n = true.
Proof.
  intros [Hlo Hhi]. unfold fits_int64.
  replace (- 2 ^ 63 <=? n) with true by (symmetry; apply Z.leb_le; lia).
  now replace (n <? 2 ^ 63) with true by (symmetry; apply Z.ltb_lt; lia).
Qed.

Lemma window_start_spec (unit_seconds n now start : Z) :
  window_start unit_seconds n now = Some start ->
  start = now - unit_seconds * n /\ 0 <= n /\ sqlite_first_second <= start.
Proof.
  unfold window_start.
  destruct (Z.ltb_spec n 0); [discriminate |].
  destruct (Z.ltb_spec (now - unit_seconds * n) sqlite_first_second);
    [discriminate |].
  intros E. injection E as <-. auto.
Qed.

Lemma window_start_some (unit_seconds n now : Z) :
  0 <= n -> sqlite_first_second <= now - unit_seconds * n ->
  window_start unit_seconds n now = Some (now - unit_seconds * n).
Proof.
  intros Hn Hf. unfold window_start.
  destruct (Z.ltb_spec n 0); [lia |].
  destruct (Z.ltb_spec (now - unit_seconds * n) sqlite_first_second);
    [lia | reflexivity].
Qed.

Lemma history_timestamps (l : list ReadingRow) :
  map h_timestamp (map history_item l) = map r_timestamp l.
Proof. rewrite map_map. reflexivity. Qed.

(** X7. For a window of [hours] hours, [hours] from 0 up to what 64 bits
    hold, the history route returns at most 1000 rows, newest first, each
    under the timestamp of a stored reading stamped strictly inside the
    window; when the window would start before the first date SQLite has,
    it returns none. *)
Theorem history_rows (hours now : Z) (d : Database) :
  db_online d = true -> 0 <= hours < 2 ^ 63 ->
  exists rows,
    get_history hours now d = HistoryRows rows
    /\ (length rows <= 1000)%nat
    /\ descending (map h_timestamp rows)
    /\ (forall item, In item rows ->
          exists r, In r (readings d) /\ h_timestamp item = r_timestamp r
                    /\ now - 3600 * hours < r_timestamp r)
    /\ (now - 3600 * hours < sqlite_first_second -> rows = []).
Proof.
  intros Hon Hh. unfold get_history, select_history.
  rewrite Hon, (fits_int64_in hours) by lia. cbn [andb].
  eexists; split; [reflexivity |].
  destruct (window_start 3600 hours now) as [start |] eqn:Ew.
  - destruct (window_start_spec _ _ _ _ Ew) as (-> & _ & Hf).
    split; [rewrite length_map; apply firstn_le_length |].
    split; [rewrite history_timestamps, <- firstn_map;
            apply descending_firstn, order_desc_sorted |].
    split; [| intros Hlt; lia].
    intros item Hi. apply in_map_iff in Hi. destruct Hi as (r & <- & Hr).
    apply In_firstn in Hr.
    apply (Permutation_in _ (order_desc_perm _)) in Hr.
    apply filter_In in Hr. destruct Hr as [Hr Hw].
    exists r. repeat split; [exact Hr |]. now apply Z.ltb_lt.
  - split; [cbn [map length]; lia |]. split; [exact I |].
    split; [intros item [] | reflexivity].
Qed.

Lemma history_rows_witness :
  exists rows,
    get_history 24 46800 one_reading_db = HistoryRows rows
    /\ (length rows <= 1000)%nat.
Proof.
  destruct (history_rows 24 46800 one_reading_db) as (rows & E & L & _).
  - reflexivity.
  - split; [discriminate | reflexivity].
  - exists rows. split; [exact E | exact L].
Defined.

(** X8. For [days] from 0 up to what 64 bits hold, the export route
    writes the ten-cell header and then one row of ten cells for every
    stored reading stamped inside the window of [days] days, without any
    cap on their number, under a file name that spells out [days]; when
    the window would start before the first date SQLite has, it writes
    the header alone. *)
Theorem export_rows (days now : Z) (d : Database) :
  db_online d = true -> 0 <= days < 2 ^ 63 ->
  exists rows,
    export_csv days now d =
      CsvFile ("environmental_data_last_"
               ++ NilZero.string_of_int (Z.to_int days) ++ "_days.csv")%string
              (csv_header :: rows)
    /\ Forall (fun row => length row = 10%nat) (csv_header :: rows)
    /\ (sqlite_first_second <= now - 86400 * days ->
        length rows =
          length (filter (fun r => now - 86400 * days <? r_timestamp r)
                    (readings d)))
    /\ (now - 86400 * days < sqlite_first_second -> rows = []).
Proof.
  intros Hon Hd. unfold export_csv, select_export.
  rewrite Hon, (fits_int64_in days) by lia. cbn [andb].
  eexists; split; [reflexivity |].
  split; [constructor; [reflexivity |]; apply Forall_map, Forall_forall;
          intros r _; reflexivity |].
  destruct (window_start 86400 days now) as [start |] eqn:Ew.
  - destruct (window_start_spec _ _ _ _ Ew) as (-> & _ & Hf).
    split; [intros _ | intros Hlt; lia].
    rewrite length_map. apply Permutation_length, order_desc_perm.
  - split; [| reflexivity]. intros Hge.
    rewrite (window_start_some 86400 days now) in Ew by lia. discriminate.
Qed.

Lemma export_rows_witness :
  exists rows,
    export_csv 7 46800 one_reading_db
    = CsvFile "environmental_data_last_7_days.csv" (csv_header :: rows)
    /\ length rows = 1%nat.
Proof.
  destruct (export_rows 7 46800 one_reading_db) as (rows & E & _ & L & _).
  - reflexivity.
  - split; [discriminate | reflexivity].
  - exists rows. split; [exact E | apply L; discriminate].
Defined.

Lemma history_of_csv_row (r : ReadingRow) :
  history_of_csv (csv_row r) = Some (history_item r).
Proof. reflexivity. Qed.

Lemma same_window (days now : Z) :
  window_start 3600 (24 * days) now = window_start 86400 days now.
Proof.
  unfold window_start.
  replace (24 * days <? 0) with (days <? 0)
    by (destruct (Z.ltb_spec days 0), (Z.ltb_spec (24 * days) 0); lia).
  now replace (3600 * (24 * days)) with (86400 * days) by lia.
Qed.

(** X9. For [days] at least 0 and [24 * days] within 64 bits, the history
    of the last [24 * days] hours is the export of the last [days] days
    cut to its first 1000 rows and to the history route's six columns. *)
Theorem history_is_export_prefix (days now : Z) (d : Database) :
  db_online d = true -> 0 <= days -> 24 * days < 2 ^ 63 ->
  exists name rows items,
    export_csv days now d = CsvFile name (csv_header :: rows)
    /\ get_history (24 * days) now d = HistoryRows items
    /\ map Some items = firstn 1000 (map history_of_csv rows).
Proof.
  intros Hon Hlo Hhi.
  unfold export_csv, get_history, select_history, select_export.
  rewrite Hon, (fits_int64_in days), (fits_int64_in (24 * days)) by lia.
  rewrite same_window. cbn [andb].
  do 3 eexists. split; [reflexivity |]. split; [reflexivity |].
  destruct (window_start 86400 days now); [| reflexivity].
  rewrite !map_map, firstn_map. apply map_ext. intros r. reflexivity.
Qed.

Lemma history_is_export_prefix_witness :
  exists name rows items,
    export_csv 1 46800 one_reading_db = CsvFile name (csv_header :: rows)
    /\ get_history 24 46800 one_reading_db = HistoryRows items
    /\ map Some items = firstn 1000 (map history_of_csv rows).
Proof.
  apply (history_is_export_prefix 1 46800 one_reading_db).
  - reflexivity.
  - discriminate.
  - reflexivity.
Defined.

(** *** Ingestion seen through the routes *)

(** The store after a reading line that it accepts. *)
Lemma step_reading_rows (s : State) (entries tentries : list (string * value))
    (now : Clock) :
  phase s = Connected ->
  reading_line entries = true ->
  tracker_after entries (current_data s) = VDict tentries ->
  db_online (db s) = true ->
  row_bindable (reading_row entries tentries now) = true ->
  let s' := step s (object_line entries now) in
  readings (db s') = readings (db s) ++ [reading_row entries tentries now]
  /\ alerts (db s') =
       alerts (db s) ++ logged_alerts (evaluate_line entries) entries now (db s)
  /\ db_online (db s') = true.
Proof.
  intros Hp H Htr Hon Hb s'.
  destruct (step_reading s entries tentries now Hp H Htr) as (_ & D & _).
  fold s' in D. rewrite D.
  destruct (alerts_alerted (evaluate_line entries) entries now (db s))
    as (Ha & Hr & Ho).
  unfold save_reading. rewrite Ho, Hon, Hb. cbn.
  rewrite Hr, Ha. auto.
Qed.

(** X10. A reading line the store accepts shows up in the history route:
    queried later with a window of [hours] hours that reaches back before
    the line's timestamp and starts no earlier than the first date SQLite
    has, and with fewer than 1000 readings stored, the route's answer
    holds a row under the line's timestamp. *)
Theorem reading_in_history (s : State) (entries tentries : list (string * value))
    (now : Clock) (hours later : Z) :
  phase s = Connected ->
  reading_line entries = true ->
  tracker_after entries (current_data s) = VDict tentries ->
  db_online (db s) = true ->
  row_bindable (reading_row entries tentries now) = true ->
  (length (readings (db s)) < 1000)%nat ->
  0 <= hours < 2 ^ 63 ->
  sqlite_first_second <= later - 3600 * hours ->
  later - 3600 * hours < current_timestamp now ->
  exists rows item,
    get_history hours later (db (step s (object_line entries now))) = HistoryRows rows
    /\ In item rows
    /\ h_timestamp item = current_timestamp now.
Proof.
  intros Hp H Htr Hon Hb Hlen Hh Hf Hw.
  destruct (step_reading_rows s entries tentries now Hp H Htr Hon Hb)
    as (Hr & _ & Ho).
  unfold get_history, select_history.
  rewrite Ho, Hr, (fits_int64_in hours) by lia.
  rewrite (window_start_some 3600 hours later) by lia. cbn [andb].
  eexists. exists (history_item (reading_row entries tentries now)).
  split; [reflexivity |]. split; [| reflexivity].
  apply (in_map history_item _ (reading_row entries tentries now)).
  rewrite firstn_all2.
  - apply (Permutation_in _ (Permutation_sym (order_desc_perm _))).
    apply filter_In. split.
    + apply in_or_app. right. now left.
    + apply Z.ltb_lt. exact Hw.
  - rewrite (Permutation_length (order_desc_perm _)).
    etransitivity; [apply filter_length_le |].
    rewrite length_app. simpl. lia.
Qed.

Lemma reading_in_history_witness :
  exists rows item,
    get_history 2 46800 (db (step listening (object_line warm noon))) = HistoryRows rows
    /\ In item rows
    /\ h_timestamp item = 43200.
Proof.
  apply (reading_in_history listening warm initial_tracker_entries noon 2 46800).
  - reflexivity.
  - reflexivity.
  - reflexivity.
  - reflexivity.
  - reflexivity.
  - repeat constructor.
  - split; [discriminate | reflexivity].
  - discriminate.
  - reflexivity.
Defined.

(** X11. Each reading line the store accepts raises the count of the
    statistics route by exactly one and leaves the newest timestamp at or
    after the line's own. *)
Theorem reading_counted (s : State) (entries tentries : list (string * value))
    (now : Clock) :
  phase s = Connected ->
  reading_line entries = true ->
  tracker_after entries (current_data s) = VDict tentries ->
  db_online (db s) = true ->
  row_bindable (reading_row entries tentries now) = true ->
  exists before after newest,
    get_db_stats (db s) = StatsOk before
    /\ get_db_stats (db (step s (object_line entries now))) = StatsOk after
    /\ total_readings after = total_readings before + 1
    /\ newest_reading after = Some newest
    /\ current_timestamp now <= newest.
Proof.
  intros Hp H Htr Hon Hb.
  destruct (step_reading_rows s entries tentries now Hp H Htr Hon Hb)
    as (Hr & _ & Ho).
  unfold get_db_stats. rewrite Ho, Hon, Hr.
  pose proof (sql_max_spec
                (map r_timestamp (readings (db s) ++ [reading_row entries tentries now])))
    as Hmax.
  destruct (sql_max _) as [hi |] eqn:E.
  - do 3 eexists. split; [reflexivity |]. split; [reflexivity |].
    cbn [total_readings newest_reading]. split; [| split; [reflexivity |]].
    + rewrite length_app. simpl. lia.
    + apply (proj2 Hmax). rewrite map_app. apply in_or_app. right. now left.
  - rewrite map_app in Hmax. destruct (map r_timestamp (readings (db s))); discriminate.
Qed.

Lemma reading_counted_witness :
  exists before after newest,
    get_db_stats (db listening) = StatsOk before
    /\ get_db_stats (db (step listening (object_line warm noon))) = StatsOk after
    /\ total_readings after = total_readings before + 1
    /\ newest_reading after = Some newest
    /\ 43200 <= newest.
Proof.
  apply (reading_counted listening warm initial_tracker_entries noon);
    reflexivity.
Defined.

(** X12. A reading above 40 degrees, taken in while the store answers and
    stamped later than every alert logged so far, heads the alert route's
    answer with its high-temperature warning. *)
Theorem hot_reading_heads_alerts (s : State)
    (entries tentries : list (string * value)) (now : Clock) (limit : Z) :
  phase s = Connected ->
  reading_line entries = true ->
  tracker_after entries (current_data s) = VDict tentries ->
  db_online (db s) = true ->
  row_bindable (reading_row entries tentries now) = true ->
  exceeds (dict_get "temp" VNone entries) 40 = true ->
  (forall a, In a (alerts (db s)) -> a_timestamp a < current_timestamp now) ->
  0 < limit < 2 ^ 63 ->
  exists rest,
    get_alerts limit (db (step s (object_line entries now))) =
      AlertRows
        ({| a_timestamp := current_timestamp now;
            a_message := [Lit "High temperature: ";
                          Fmt (dict_get "temp" VNone entries); Lit "°C"];
            a_level := "WARNING" |} :: rest).
Proof.
  intros Hp H Htr Hon Hb Hot Hnew [Hlo Hhi].
  destruct (step_reading_rows s entries tentries now Hp H Htr Hon Hb)
    as (_ & Ha & Ho).
  unfold get_alerts, fits_int64, sql_limit. rewrite Ho, Ha.
  replace (- 2 ^ 63 <=? limit) with true by (symmetry; apply Z.leb_le; lia).
  replace (limit <? 2 ^ 63) with true by (symmetry; apply Z.ltb_lt; lia).
  replace (limit <? 0) with false by (symmetry; apply Z.ltb_ge; lia).
  unfold logged_alerts, evaluate_line, evaluate. rewrite Hot, Hon.
  cbn [alert_message andb].
  rewrite newest_alert_on_top by exact Hnew.
  destruct (Z.to_nat limit) as [| n] eqn:En; [lia |].
  simpl. eexists; reflexivity.
Qed.

Lemma hot_reading_heads_alerts_witness :
  exists rest,
    get_alerts 50 (db (step listening (object_line hot noon))) =
      AlertRows
        ({| a_timestamp := 43200;
            a_message := [Lit "High temperature: "; Fmt (VInt 41); Lit "°C"];
            a_level := "WARNING" |} :: rest).
Proof.
  apply (hot_reading_heads_alerts listening hot initial_tracker_entries noon 50);
    try reflexivity.
  - intros a [].
  - split; reflexivity.
Defined.

(** *** More on the read loop *)

(** X13. An empty line, a line on which [json.loads] raises
    [JSONDecodeError] and a status message (an object with [status] and
    [msg], whatever else it carries, whose [msg] is a value [print] can
    write, as every [value] is) leave the worker exactly as it was:
    snapshot, store and port untouched, and not even the 0.1 s sleep of
    the loop is taken. *)
Theorem passed_over_lines (s : State) (line : Line) (now : Clock) :
  phase s = Connected -> passed_over line = true ->
  step s (Polled (Readline line now)) = s.
Proof.
  intros Hp H. rewrite (step_connected _ _ Hp).
  destruct line as [| [data |]]; try reflexivity.
  destruct data as [| | | | | | entries]; try discriminate.
  simpl in H. apply andb_prop in H. destruct H as [Hs Hm].
  unfold read, handle_line, py_and, bind, eval, ret, continue, py_in.
  now rewrite Hs, Hm, (getitem_present _ _ Hm).
Qed.

Lemma passed_over_lines_witness :
  step listening (object_line status_with_error noon) = listening.
Proof.
  apply (passed_over_lines listening (Text (Some (VDict status_with_error))) noon);
    reflexivity.
Defined.

Section Preserved.

Context {R : State -> State -> Prop}.
Hypothesis R_refl : forall s, R s s.
Hypothesis R_trans : forall s1 s2 s3, R s1 s2 -> R s2 s3 -> R s1 s3.

Lemma preserved_ret {A : Type} (a : A) : preserved R (ret a).
Proof using R_refl. intros s; apply R_refl. Qed.

Lemma preserved_continue {A : Type} : preserved R (@continue A).
Proof using R_refl. intros s; apply R_refl. Qed.

Lemma preserved_eval {A : Type} (r : Res A) : preserved R (eval r).
Proof using R_refl. intros s; unfold eval; destruct r; apply R_refl. Qed.

Lemma preserved_load : preserved R load.
Proof using R_refl. intros s; apply R_refl. Qed.

Lemma preserved_bind {A B : Type} (c : M A) (k : A -> M B) :
  preserved R c -> (forall a, preserved R (k a)) -> preserved R (bind c k).
Proof using R_trans.
  intros Hc Hk s. unfold bind.
  specialize (Hc s). destruct (c s) as [[a | | e] s1]; simpl in Hc.
  - eapply R_trans; [exact Hc | apply Hk].
  - exact Hc.
  - exact Hc.
Qed.

Lemma preserved_if {A : Type} (b : bool) (c1 c2 : M A) :
  preserved R c1 -> preserved R c2 -> preserved R (if b then c1 else c2).
Proof using Type. destruct b; auto. Qed.

End Preserved.

Lemma grows_refl (d : Database) : grows d d.
Proof.
  split; [reflexivity |]. split; exists []; now rewrite app_nil_r.
Qed.

Lemma grows_trans (d1 d2 d3 : Database) :
  grows d1 d2 -> grows d2 d3 -> grows d1 d3.
Proof.
  intros (O1 & [r1 R1] & [a1 A1]) (O2 & [r2 R2] & [a2 A2]).
  split; [congruence |]. split.
  - exists (r1 ++ r2). now rewrite R2, R1, app_assoc.
  - exists (a1 ++ a2). now rewrite A2, A1, app_assoc.
Qed.

Lemma store_grows_refl (s : State) : store_grows s s.
Proof. apply grows_refl. Qed.

Lemma store_grows_trans (s1 s2 s3 : State) :
  store_grows s1 s2 -> store_grows s2 s3 -> store_grows s1 s3.
Proof. apply grows_trans. Qed.

Lemma save_alert_grows (a : AlertRow) (d : Database) :
  grows d (fst (save_alert a d)).
Proof.
  unfold save_alert. destruct (db_online d) eqn:E; [| apply grows_refl].
  split; [simpl; now rewrite E |]. split; [exists [] | exists [a]]; simpl;
    now rewrite ?app_nil_r.
Qed.

Lemma save_reading_grows (r : ReadingRow) (d : Database) :
  grows d (fst (save_reading r d)).
Proof.
  unfold save_reading.
  destruct (db_online d && row_bindable r); [| apply grows_refl].
  split; [reflexivity |]. split; [exists [r] | exists []]; simpl;
    now rewrite ?app_nil_r.
Qed.

Ltac preserved_by refl trans leaf :=
  repeat first
    [ apply (preserved_bind trans); [| intros ?]
    | apply preserved_if
    | apply (preserved_ret refl)
    | apply (preserved_continue refl)
    | apply (preserved_eval refl)
    | apply (preserved_load refl)
    | leaf ].

Lemma handle_line_grows (line : Line) (now : Clock) :
  preserved store_grows (handle_line line now).
Proof.
  unfold handle_line.
  destruct line as [| [data |]]; try apply (preserved_continue store_grows_refl).
  unfold alert_chain, py_and, py_or.
  preserved_by store_grows_refl store_grows_trans
    ltac:(first [ intros s; apply grows_refl
                | intros s; apply save_alert_grows
                | intros s; apply save_reading_grows ]).
Qed.

Lemma no_data_db (s : State) : db (no_data s) = db s.
Proof. unfold no_data. destruct (ser s); reflexivity. Qed.

Lemma step_grows (s : State) (e : Event) : grows (db s) (db (step s e)).
Proof.
  unfold step.
  destruct (phase s) as [| n |]; destruct e as [d | p]; try apply grows_refl.
  - destruct d; apply grows_refl.
  - unfold probe, waiting.
    destruct (n <? 10)%nat; [| rewrite no_data_db; apply grows_refl].
    destruct p as [| [| decoded] now | |]; try apply grows_refl;
      destruct (S n <? 10)%nat; try apply grows_refl;
      rewrite no_data_db; apply grows_refl.
  - unfold read. destruct p as [| line now | |]; try apply grows_refl.
    pose proof (handle_line_grows line now s) as G. unfold store_grows in G.
    destruct (handle_line line now s) as [[[] | | x] s']; exact G.
Qed.

(** X14. Whatever the worker meets, it only ever appends to the store:
    after any run of events the readings and alerts stored before are
    still there, in place and unchanged, followed by what was added. *)
Theorem store_append_only (s : State) (es : list Event) :
  db_online (db (run s es)) = db_online (db s)
  /\ (exists more, readings (db (run s es)) = readings (db s) ++ more)
  /\ (exists more, alerts (db (run s es)) = alerts (db s) ++ more).
Proof.
  change (grows (db s) (db (run s es))).
  revert s. induction es as [| e es IH]; intros s; [apply grows_refl |].
  eapply grows_trans; [apply (step_grows s e) | apply IH].
Qed.

(** *** The connectivity flag *)

Lemma flag_stays_up_refl (s : State) : flag_stays_up s s.
Proof. intros H; exact H. Qed.

Lemma flag_stays_up_trans (s1 s2 s3 : State) :
  flag_stays_up s1 s2 -> flag_stays_up s2 s3 -> flag_stays_up s1 s3.
Proof. unfold flag_stays_up; auto. Qed.

Lemma handle_line_flag (line : Line) (now : Clock) :
  preserved flag_stays_up (handle_line line now).
Proof.
  unfold handle_line.
  destruct line as [| [data |]]; try apply (preserved_continue flag_stays_up_refl).
  unfold alert_chain, py_and, py_or.
  preserved_by flag_stays_up_refl flag_stays_up_trans
    ltac:(intros s H; first [exact H | reflexivity]).
Qed.

Lemma flag_down (s : State) :
  phase s <> Connected -> connected (current_data s) = false ->
  flag_invariant s.
Proof. intros Hp Hc. split; intros H; congruence. Qed.

Lemma flag_invariant_down (s : State) :
  flag_invariant s -> phase s <> Connected ->
  connected (current_data s) = false.
Proof.
  intros [I _] Hp. destruct (connected (current_data s)) eqn:E; [| reflexivity].
  elim Hp. now apply I.
Qed.

Lemma flag_step (s : State) (e : Event) :
  flag_invariant s -> flag_invariant (step s e).
Proof.
  intros I. unfold step.
  destruct (phase s) as [| n |] eqn:Hp; destruct e as [d | p]; try exact I.
  - assert (Hc : connected (current_data s) = false)
      by (apply (flag_invariant_down s I); rewrite Hp; discriminate).
    destruct d; apply flag_down; cbn; try discriminate; try reflexivity;
      try (rewrite Hp; discriminate).
    exact Hc.
  - assert (Hc : connected (current_data s) = false)
      by (apply (flag_invariant_down s I); rewrite Hp; discriminate).
    assert (Hn : flag_invariant (no_data s)).
    { apply flag_down; unfold no_data; destruct (ser s); cbn;
        try discriminate; reflexivity. }
    assert (Hw : flag_invariant (waiting n s)).
    { unfold waiting. destruct (S n <? 10)%nat.
      - apply flag_down; [cbn; discriminate | exact Hc].
      - apply flag_down; unfold no_data; destruct (ser (sleep 1000 s)); cbn;
          try discriminate; reflexivity. }
    unfold probe. destruct (n <? 10)%nat; [| exact Hn].
    destruct p as [| [| decoded] now | |]; try exact Hw.
    + split; reflexivity.
    + apply flag_down; [cbn; discriminate | reflexivity].
    + apply flag_down; [cbn; discriminate | reflexivity].
  - assert (Hc : connected (current_data s) = true) by (apply I; exact Hp).
    unfold read. destruct p as [| line now | |].
    + split; intros _; [exact Hp | exact Hc].
    + pose proof (handle_line_flag line now s Hc) as F.
      pose proof (framed_handle_line line now s) as (Fp & _).
      destruct (handle_line line now s) as [[[] | | x] s']; simpl in F, Fp.
      * split; intros _; [cbn; congruence | exact F].
      * split; intros _; [congruence | exact F].
      * apply flag_down; [cbn; discriminate | reflexivity].
    + apply flag_down; [cbn; discriminate | reflexivity].
    + apply flag_down; [cbn; discriminate | reflexivity].
Qed.

(** X15. At every point the worker can reach, the snapshot's connectivity
    flag is up exactly when the worker is in its read loop: it is down
    throughout discovery and probing, and no line handled in the read
    loop lowers it. *)
Theorem flag_tracks_phase (d : Database) (es : list Event) :
  connected (current_data (run (boot d) es)) = true
  <-> phase (run (boot d) es) = Connected.
Proof.
  change (flag_invariant (run (boot d) es)).
  assert (I : flag_invariant (boot d)) by (split; discriminate).
  revert I. generalize (boot d). clear d.
  induction es as [| e es IH]; intros s I; [exact I |].
  apply IH, flag_step, I.
Qed.

(** *** A reading that cannot be compared *)

Lemma not_number_gt (v : value) (n : Z) :
  is_number v = false -> py_gt v n = Err TypeError.
Proof. destruct v; try discriminate; reflexivity. Qed.

(** X16. An object with [temp] and [hum] whose [temp] is not a number (a
    [null], say, or a string) is half taken in: the snapshot's
    measurements and time are overwritten with the line's, then the
    comparison against 40 raises, nothing is stored, and the worker drops
    the connection and returns to discovery with the port left open. *)
Theorem unordered_temperature_drops_link (s : State)
    (entries : list (string * value)) (now : Clock) :
  phase s = Connected -> unordered_reading entries = true ->
  let s' := step s (object_line entries now) in
  phase s' = Discovering
  /\ connected (current_data s') = false
  /\ status (current_data s') = "Connection lost"
  /\ temperature (current_data s') = dict_get "temp" VNone entries
  /\ humidity (current_data s') = dict_get "hum" VNone entries
  /\ dust (current_data s') = dict_get "dust" (VInt 0) entries
  /\ pressure (current_data s') = dict_get "pressure" (VInt 0) entries
  /\ time (current_data s') = time_of_day now
  /\ db s' = db s
  /\ ser s' = ser s.
Proof.
  intros Hp H. unfold unordered_reading in H.
  repeat (apply andb_prop in H; destruct H as [H ?]).
  apply negb_true_iff in H.
  repeat match goal with E : negb _ = true |- _ => apply negb_true_iff in E end.
  match goal with E : is_number _ = false |- _ => rename E into Hn end.
  match goal with E : dict_has "error" _ = false |- _ => rename E into He end.
  match goal with E : dict_has "temp" _ = true |- _ => rename E into Ht end.
  match goal with E : dict_has "hum" _ = true |- _ => rename E into Hh end.
  unfold object_line. rewrite (step_connected _ _ Hp).
  unfold read, handle_line, alert_chain, py_and, bind, eval, store, load, ret,
    py_in, py_get.
  rewrite He, Ht, Hh.
  rewrite (getitem_present _ _ Ht), (getitem_present _ _ Hh).
  rewrite (not_number_gt _ 40 Hn).
  destruct (dict_has "status" entries); simpl in H; rewrite ?H;
    (destruct (dict_has "tracker" entries) eqn:Hk;
     [rewrite (getitem_present _ _ Hk) |]); cbn; repeat split.
Qed.

Lemma unordered_temperature_drops_link_witness :
  phase (step listening (object_line null_reading noon)) = Discovering
  /\ temperature (current_data (step listening (object_line null_reading noon)))
     = VNone.
Proof.
  pose proof (unordered_temperature_drops_link listening null_reading noon
                eq_refl eq_refl) as (A & _ & _ & B & _).
  split; [exact A | exact B].
Defined.

(** *** Recovery *)

(** X17. Losing the device is never final.  From the read loop, an
    exception from the port followed by a discovery that opens a port and
    by one non-empty line brings the worker back into the read loop with
    the flag up, the measurements in the snapshot and the store as they
    were; no sleep is taken between the failure and the new discovery. *)
Theorem reconnects_after_failure (s : State) (failure : Poll) (p : string)
    (decoded : option value) (now : Clock) :
  phase s = Connected ->
  failure = SerialException \/ failure = OtherException ->
  let s' := run s [Polled failure; Locate (Opened p);
                   Polled (Readline (Text decoded) now)] in
  phase s' = Connected
  /\ connected (current_data s') = true
  /\ status (current_data s') = "Connected ✓"
  /\ keeps_readings (current_data s) (current_data s')
  /\ db s' = db s
  /\ ser s' = Some {| port := p; is_open := true |}
  /\ effects s' = effects s ++ [SerialOpen p; Sleep 2000].
Proof.
  intros Hp [-> | ->]; unfold run; simpl fold_left;
    rewrite (step_connected _ _ Hp); cbn;
    repeat split; now rewrite <- app_assoc.
Qed.

Lemma reconnects_after_failure_witness :
  phase (run listening [Polled SerialException; Locate (Opened "COM4");
                        Polled (Readline (Text None) noon)]) = Connected.
Proof.
  apply (reconnects_after_failure listening SerialException "COM4" None noon).
  - reflexivity.
  - left; reflexivity.
Defined.

(** *** The schema after [init_database] *)

Lemma listed_name (n : string) (names : list string) :
  existsb (String.eqb n) names = true <-> In n names.
Proof.
  rewrite existsb_exists. split.
  - intros (x & Hx & E). apply String.eqb_eq in E. now subst.
  - intros H. exists n. split; [exact H | apply String.eqb_refl].
Qed.

(** When the loop over the columns to add goes through, the table has
    gained the columns that were not listed, in order, and each row a
    [NULL] for each. *)
Lemma add_missing_shape (names : list string) (to_add : list (string * string))
    (t t' : Table) :
  add_missing names to_add t = Some t' ->
  let added :=
    filter (fun col => negb (existsb (String.eqb (fst col)) names)) to_add in
  t_name t' = t_name t
  /\ t_columns t' = t_columns t ++ added
  /\ t_rows t' = map (fun r => r ++ repeat VNone (length added)) (t_rows t).
Proof.
  revert t. induction to_add as [| col rest IH]; intros t H; simpl in *.
  - injection H as <-. rewrite app_nil_r. repeat split.
    rewrite <- (map_id (t_rows t)) at 1. apply map_ext.
    intros r. now rewrite app_nil_r.
  - destruct (existsb (String.eqb (fst col)) names); simpl.
    + now apply IH.
    + unfold alter_add_column in H.
      destruct (existsb (fun c => same_name (fst c) (fst col)) (t_columns t));
        [discriminate |].
      destruct (IH _ H) as (A & B & C). simpl in A, B, C.
      repeat split; [exact A | now rewrite B, <- app_assoc |].
      rewrite C, map_map. apply map_ext. intros r. now rewrite <- app_assoc.
Qed.

Lemma add_missing_nothing (names : list string) (to_add : list (string * string))
    (t : Table) :
  (forall col, In col to_add -> In (fst col) names) ->
  add_missing names to_add t = Some t.
Proof.
  induction to_add as [| col rest IH]; intros H; simpl; [reflexivity |].
  rewrite (proj2 (listed_name _ _)) by (apply H; now left).
  apply IH. intros c Hc. apply H. now right.
Qed.

Lemma added_or_listed (names : list string) (to_add : list (string * string))
    (col : string * string) :
  In col to_add ->
  In (fst col) names
  \/ In col (filter (fun c => negb (existsb (String.eqb (fst c)) names)) to_add).
Proof.
  intros H. destruct (existsb (String.eqb (fst col)) names) eqn:E.
  - left. now apply listed_name.
  - right. apply filter_In. split; [exact H | now rewrite E].
Qed.

(** What [init_database] leaves, whatever it found. *)
Lemma init_database_result (c : Catalog) :
  exists r a,
    cat_readings (init_database c) = Some r
    /\ cat_alerts (init_database c) = Some a
    /\ t_name r = "readings"
    /\ forall col, In col columns_to_add -> In (fst col) (map fst (t_columns r)).
Proof.
  unfold init_database, migrate.
  destruct (cat_readings c) as [t |] eqn:Er.
  - destruct (String.eqb (t_name t) "readings") eqn:En.
    + apply String.eqb_eq in En.
      destruct (add_missing (map fst (t_columns t)) columns_to_add t) as [t' |] eqn:Ea.
      * destruct (add_missing_shape _ _ _ _ Ea) as (A & B & _).
        exists t'. destruct (cat_alerts c) as [a |]; eexists;
          (split; [reflexivity |]; split; [reflexivity |];
           split; [congruence |]);
          intros col Hc; rewrite B, map_app; apply in_or_app;
          (destruct (added_or_listed (map fst (t_columns t)) _ _ Hc) as [L | L];
           [left; exact L | right; now apply in_map]).
      * exists new_readings_table, new_alerts_table.
        repeat split. intros col Hc.
        repeat (destruct Hc as [<- | Hc]; [simpl; tauto |]). destruct Hc.
    + exists new_readings_table, new_alerts_table.
      repeat split. intros col Hc.
      repeat (destruct Hc as [<- | Hc]; [simpl; tauto |]). destruct Hc.
  - exists new_readings_table.
    destruct (cat_alerts c) as [a |]; eexists; repeat split;
      intros col Hc;
      repeat (destruct Hc as [<- | Hc]; [simpl; tauto |]); destruct Hc.
Qed.


(** X18. After [init_database], whatever it found, there is a table
    named [readings] holding each of the seven sensor columns, and there
    is an alerts table. *)
Theorem init_database_tables (c : Catalog) :
  exists r a,
    cat_readings (init_database c) = Some r
    /\ cat_alerts (init_database c) = Some a
    /\ t_name r = "readings"
    /\ forall col, In col columns_to_add -> In (fst col) (map fst (t_columns r)).
Proof. apply init_database_result. Qed.

(** X19. Running [init_database] a second time changes nothing. *)
Theorem init_database_idempotent (c : Catalog) :
  init_database (init_database c) = init_database c.
Proof.
  destruct (init_database_result c) as (r & a & Hr & Ha & Hn & Hcols).
  destruct (init_database c) as [cr ca]. simpl in Hr, Ha. subst cr ca.
  unfold init_database, migrate. cbn [cat_readings cat_alerts].
  rewrite Hn, String.eqb_refl.
  rewrite add_missing_nothing by exact Hcols.
  reflexivity.
Qed.

Lemma forallb_false_witness {A : Type} (f : A -> bool) (l : list A) :
  forallb f l = false -> exists x, In x l /\ f x = false.
Proof.
  induction l as [| a l IH]; simpl; [discriminate |].
  destruct (f a) eqn:E; simpl.
  - intros H. destruct (IH H) as (x & Hx & Fx). exists x. auto.
  - intros _. exists a. auto.
Qed.

Lemma no_clash_with (cols : list (string * string)) (name : string) :
  forallb (fun c => negb (same_name (fst c) name)) cols
  = negb (existsb (fun c => same_name (fst c) name) cols).
Proof.
  induction cols as [| c cols IH]; simpl; [reflexivity |].
  rewrite IH. now destruct (same_name (fst c) name).
Qed.

Lemma columns_to_add_distinct :
  ForallOrdPairs (fun a b => same_name (fst a) (fst b) = false) columns_to_add.
Proof. unfold columns_to_add. repeat constructor. Qed.

(** The loop goes through when no column to add meets a column of its
    name, case apart. *)
Lemma add_missing_ok (names : list string) (to_add : list (string * string))
    (t : Table) :
  ForallOrdPairs (fun a b => same_name (fst a) (fst b) = false) to_add ->
  (forall col, In col to_add ->
     existsb (String.eqb (fst col)) names = false ->
     existsb (fun c => same_name (fst c) (fst col)) (t_columns t) = false) ->
  exists t', add_missing names to_add t = Some t'.
Proof.
  revert t. induction to_add as [| col rest IH]; intros t D H; simpl.
  - now exists t.
  - inversion D as [| ? ? Hcol Hrest]; subst.
    destruct (existsb (String.eqb (fst col)) names) eqn:E.
    + apply IH; [exact Hrest |]. intros c Hc. apply H. now right.
    + unfold alter_add_column. rewrite (H col (or_introl eq_refl) E).
      apply IH; [exact Hrest |]. intros c Hc Ec. simpl.
      rewrite existsb_app. rewrite (H c (or_intror Hc) Ec). simpl.
      rewrite (proj1 (Forall_forall _ _) Hcol c Hc). reflexivity.
Qed.

(** The loop raises when a column to add meets a column of its name,
    case apart. *)
Lemma add_missing_clash (names : list string) (to_add : list (string * string))
    (t : Table) (col : string * string) :
  In col to_add ->
  existsb (String.eqb (fst col)) names = false ->
  existsb (fun c => same_name (fst c) (fst col)) (t_columns t) = true ->
  add_missing names to_add t = None.
Proof.
  revert t. induction to_add as [| x rest IH]; intros t Hin En Hc; [destruct Hin |].
  simpl. destruct Hin as [-> | Hin].
  - rewrite En. unfold alter_add_column. now rewrite Hc.
  - destruct (existsb (String.eqb (fst x)) names); [now apply IH |].
    unfold alter_add_column.
    destruct (existsb (fun c => same_name (fst c) (fst x)) (t_columns t));
      [reflexivity |].
    apply IH; try assumption. simpl. rewrite existsb_app, Hc. reflexivity.
Qed.

(** X20. A table named [readings] none of whose columns differs only by
    case from a sensor column it lacks is migrated in place: it keeps its
    columns and rows, gains the sensor columns it lacked, in the order of
    [columns_to_add], and every row reads [NULL] in each of them.  An
    alerts table that was there is kept as it is. *)
Theorem migration_keeps_rows (c : Catalog) (t : Table) :
  cat_readings c = Some t -> t_name t = "readings" -> no_case_clash t = true ->
  let missing := missing_columns (map fst (t_columns t)) in
  cat_readings (init_database c) =
    Some {| t_name := "readings";
            t_columns := t_columns t ++ missing;
            t_rows := map (fun r => r ++ repeat VNone (length missing)) (t_rows t) |}
  /\ cat_alerts (init_database c) =
       Some (match cat_alerts c with Some a => a | None => new_alerts_table end).
Proof.
  intros Hr Hn Hc missing.
  destruct (add_missing_ok (map fst (t_columns t)) columns_to_add t
              columns_to_add_distinct) as (t' & Ht').
  { intros col Hin E. unfold no_case_clash in Hc.
    rewrite forallb_forall in Hc.
    assert (Hm : In col (missing_columns (map fst (t_columns t))))
      by (apply filter_In; split; [exact Hin | now rewrite E]).
    specialize (Hc col Hm). rewrite no_clash_with in Hc.
    now apply negb_true_iff in Hc. }
  destruct (add_missing_shape _ _ _ _ Ht') as (A & B & C).
  unfold init_database, migrate. rewrite Hr, Hn, String.eqb_refl, Ht'.
  cbn [cat_readings cat_alerts]. split.
  - f_equal. destruct t' as [n cols rows]. simpl in A, B, C.
    subst n cols rows. rewrite Hn. reflexivity.
  - now destruct (cat_alerts c).
Qed.

Lemma migration_keeps_rows_witness :
  option_map t_rows
    (cat_readings
       (init_database {| cat_readings := Some old_readings_table;
                         cat_alerts := None |}))
  = Some
      [[VInt 1; VStr "2024-01-01 10:00:00"; VFloat (Finite (43 # 2));
        VInt 50; VStr "OK";
        VNone; VNone; VNone; VNone; VNone; VNone; VNone];
       [VInt 2; VStr "2024-01-01 10:00:05"; VInt 22; VInt 51; VStr "OK";
        VNone; VNone; VNone; VNone; VNone; VNone; VNone]].
Proof.
  destruct (migration_keeps_rows
              {| cat_readings := Some old_readings_table; cat_alerts := None |}
              old_readings_table eq_refl eq_refl eq_refl) as (A & _).
  rewrite A. reflexivity.
Defined.

(** X21. A readings table created under another spelling of the name, or
    holding a column that differs only by case from a sensor column it
    lacks, makes a statement of the migration fail; [init_database] then
    drops both tables and creates them anew, and the rows stored so far
    are gone. *)
Theorem clash_recreates (c : Catalog) (t : Table) :
  cat_readings c = Some t ->
  t_name t <> "readings" \/ no_case_clash t = false ->
  init_database c = recreated
  /\ option_map t_rows (cat_readings (init_database c)) = Some [].
Proof.
  intros Hr H.
  assert (E : init_database c = recreated).
  { unfold init_database, migrate. rewrite Hr.
    destruct (String.eqb (t_name t) "readings") eqn:En; [| reflexivity].
    apply String.eqb_eq in En. destruct H as [H | H]; [now elim H |].
    unfold no_case_clash in H.
    destruct (forallb_false_witness _ _ H) as (col & Hm & Hc).
    apply filter_In in Hm. destruct Hm as [Hin Hl].
    rewrite no_clash_with in Hc.
    apply negb_false_iff in Hc. apply negb_true_iff in Hl.
    now rewrite (add_missing_clash _ _ _ col Hin Hl Hc). }
  split; [exact E | now rewrite E].
Qed.

Lemma clash_recreates_witness :
  init_database {| cat_readings := Some odd_case_table; cat_alerts := None |}
  = recreated.
Proof.
  apply (clash_recreates
           {| cat_readings := Some odd_case_table; cat_alerts := None |}
           odd_case_table eq_refl).
  right. reflexivity.
Defined.
